(** * Nexora: the "AI Innovation Generator" script [organizing1.py]

    A shallow embedding of the Streamlit script and of its four
    components ([generate_innovation], [analyze_image], [analyze_data],
    [generate_random_concept]) together with the start-up code
    ([load_models]) and the dispatch of the user interface.

    Conventions of the embedding.
    - Python text is a [string] holding the UTF-8 bytes of the text.
      [str.strip] removes the white space of Unicode.  [str.capitalize]
      changes the case of ASCII letters, which is exact on ASCII text (the
      choices of the context selector, the labels of the vocabulary); the
      case of other characters is in the Unicode tables of the
      interpreter, and such characters are left as they are.
    - Python floats that are finite are rationals ([Q]); they compare
      exactly as their rational values do.  The probabilities returned by
      the softmax, and the two sampling parameters, are such values.
    - A Python exception is a value [PyExn]; a call that may raise returns
      a [PyResult].  The script itself runs in the monad [M], which threads
      the [World] (what was rendered, what was printed, the state of the
      random generator) and ends in a value, in an exception, or in
      Streamlit's script stop.
    - The pretrained models, the image decoder and the CSV reader are
      third-party code: they are parameters, gathered in [Env] and
      [Models]. *)

From Stdlib Require Import ZArith QArith String Ascii List Lia.
From Stdlib Require Import DecimalString DecimalNat Sorted.
From stdpp Require Import gmap strings list fin_maps.

(** ** Python values used by the script *)

(** An exception instance: the name of its class, [str(e)], and the text
    of the stack frames that [traceback] prints for it. *)
Record PyExn := mkExn {
  exn_type : string;
  exn_msg : string;
  exn_frames : string
}.

(** The last line of a traceback: the class, then [str(e)] after a colon
    when it is not empty. *)
Definition format_exception_only (e : PyExn) : string :=
  match exn_msg e with
  | EmptyString => exn_type e
  | msg => exn_type e +:+ ": " +:+ msg
  end.

(** [traceback.format_exc()] inside an [except] block handling [e]. *)
Definition format_exc (e : PyExn) : string :=
  "Traceback (most recent call last):" +:+ String "010" (exn_frames e)
    +:+ format_exception_only e +:+ String "010" "".

(** The result of a call into third-party code: a value, or an exception
    that derives from [Exception]. *)
Inductive PyResult (A : Type) : Type :=
| Ok (a : A)
| Raise (e : PyExn).
Arguments Ok {A} a.
Arguments Raise {A} e.

(** ** Values exchanged with the third-party libraries *)

(** An uploaded file, and a decoded [PIL] image. *)
Record Upload := mkUpload { file_name : string; file_bytes : list N }.
Record Image := mkImage { img_width : nat; img_height : nat; img_pixels : list N }.

(** One call of the text-generation pipeline: the prompt and the four
    keyword arguments. *)
Record GenCall := mkGenCall {
  gc_prompt : string;
  max_length : Z;
  num_return_sequences : Z;
  temperature : Q;
  top_p : Q
}.

(** The batch that [CLIPProcessor] builds: the tokenised texts and the
    preprocessed image. *)
Record ClipInputs := mkClipInputs {
  input_ids : list (list N);
  pixel_values : list Q
}.

(** A column of a [pandas] table: numbers ([int64], [float64], with [None]
    for NaN), booleans, or Python objects (text). *)
Inductive Series :=
| NumSeries (xs : list (option Q))
| BoolSeries (xs : list bool)
| ObjSeries (xs : list (option string)).

Definition series_length (s : Series) : nat :=
  match s with
  | NumSeries xs => length xs
  | BoolSeries xs => length xs
  | ObjSeries xs => length xs
  end.

(** A table as [pd.read_csv] builds it: the length of its index and its
    columns, in order, each under a label that is a text. *)
Record DataFrame := mkDataFrame {
  df_nrows : nat;
  df_columns : list (string * Series)
}.

Definition df_wf (df : DataFrame) : Prop :=
  Forall (fun c => series_length c.2 = df_nrows df) (df_columns df).

(** [df.shape]. *)
Definition shape (df : DataFrame) : nat * nat :=
  (df_nrows df, length (df_columns df)).

(** [df.columns], the labels in order. *)
Definition columns (df : DataFrame) : list string := (df_columns df).*1.

(** The statistics of one column: statistic name, value. *)
Definition Stats : Type := list (string * option Q).

(** ** The world of one script run *)

(** What Streamlit is asked to render, in the order of the calls. *)
Inductive UiEvent :=
| StPageConfig (title : string)
| StTitle (msg : string)
| StCaption (msg : string)
| StError (msg : string)
| StWarning (msg : string)
| StSuccess (msg : string)
| StWrite (msg : string)
| StMarkdown (msg : string)
| StImage (caption : string)
| StDataframe (df : DataFrame)
| StJson (stats : gmap string Stats).

(** [ui] and [stdout] grow at the end; [rng] is the state of the random
    generator that sampling draws from; [gen_calls] records, in order, the
    calls received by the text-generation pipeline. *)
Record World := mkWorld {
  ui : list UiEvent;
  stdout : list string;
  rng : N;
  gen_calls : list GenCall
}.

(** How a piece of the script ends.  [Stopped] is Streamlit's
    [StopException]: a script-control exception that derives from
    [BaseException], so that no [except Exception] clause catches it. *)
Inductive Outcome (A : Type) : Type :=
| Return (a : A)
| Raised (e : PyExn)
| Stopped.
Arguments Return {A} a.
Arguments Raised {A} e.
Arguments Stopped {A}.

Definition M (A : Type) : Type := World -> Outcome A * World.

Definition ret {A} (a : A) : M A := fun w => (Return a, w).

Definition bind {A B} (c : M A) (k : A -> M B) : M B :=
  fun w =>
    match c w with
    | (Return a, w') => k a w'
    | (Raised e, w') => (Raised e, w')
    | (Stopped, w') => (Stopped, w')
    end.

Notation "x <- c ;; k" := (bind c (fun x => k))
  (at level 100, c at next level, right associativity).
Notation "c ;;; k" := (bind c (fun _ => k))
  (at level 100, right associativity).

Definition raise {A} (e : PyExn) : M A := fun w => (Raised e, w).

(** A call into third-party code that touches nothing of the world. *)
Definition call {A} (r : PyResult A) : M A :=
  match r with
  | Ok a => ret a
  | Raise e => raise e
  end.

(** [try: body  except Exception as e: handler e]. *)
Definition try_except {A} (body : M A) (handler : PyExn -> M A) : M A :=
  fun w =>
    match body w with
    | (Raised e, w') => handler e w'
    | r => r
    end.

Definition emit (ev : UiEvent) : M unit :=
  fun w => (Return tt, mkWorld (ui w ++ [ev]) (stdout w) (rng w) (gen_calls w)).

Definition print (line : string) : M unit :=
  fun w => (Return tt, mkWorld (ui w) (stdout w ++ [line]) (rng w) (gen_calls w)).

(** [st.stop()]. *)
Definition st_stop {A} : M A := fun w => (Stopped, w).

(** ** Python text *)

Definition is_upper (c : ascii) : bool :=
  let n := nat_of_ascii c in (65 <=? n)%nat && (n <=? 90)%nat.
Definition is_lower (c : ascii) : bool :=
  let n := nat_of_ascii c in (97 <=? n)%nat && (n <=? 122)%nat.
Definition to_upper (c : ascii) : ascii :=
  if is_lower c then ascii_of_nat (nat_of_ascii c - 32) else c.
Definition to_lower (c : ascii) : ascii :=
  if is_upper c then ascii_of_nat (nat_of_ascii c + 32) else c.

Fixpoint lower (s : string) : string :=
  match s with
  | EmptyString => EmptyString
  | String c s' => String (to_lower c) (lower s')
  end.

(** [str.capitalize] on ASCII text: the first character upper-cased, the
    rest lower-cased.  Characters outside ASCII are left as they are. *)
Definition capitalize (s : string) : string :=
  match s with
  | EmptyString => EmptyString
  | String c s' => String (to_upper c) (lower s')
  end.

(** A Python [str] is held as its UTF-8 bytes; [utf8] encodes one code
    point. *)
Definition byte (n : N) : ascii := ascii_of_N n.

Definition utf8 (cp : N) : string :=
  if (cp <? 128)%N then String (byte cp) ""
  else if (cp <? 2048)%N then
    String (byte (192 + cp / 64)) (String (byte (128 + cp mod 64)) "")
  else if (cp <? 65536)%N then
    String (byte (224 + cp / 4096))
      (String (byte (128 + (cp / 64) mod 64)) (String (byte (128 + cp mod 64)) ""))
  else
    String (byte (240 + cp / 262144))
      (String (byte (128 + (cp / 4096) mod 64))
         (String (byte (128 + (cp / 64) mod 64)) (String (byte (128 + cp mod 64)) ""))).

(** The continuation bytes of UTF-8, 10xxxxxx. *)
Definition is_continuation (c : ascii) : bool :=
  let n := N_of_ascii c in (128 <=? n)%N && (n <? 192)%N.

Definition starts_with_continuation (s : string) : bool :=
  match s with
  | String d _ => is_continuation d
  | EmptyString => false
  end.

(** The characters of a text, each with all its bytes: a byte joins the
    character before it exactly when it is a continuation byte. *)
Fixpoint chars (s : string) : list string :=
  match s with
  | EmptyString => []
  | String c s' =>
      match chars s' with
      | g :: gs =>
          if starts_with_continuation g then String c g :: gs
          else String c "" :: g :: gs
      | [] => [String c ""]
      end
  end.

Definition unchars (cs : list string) : string := foldr String.append "" cs.

(** The code points that [str.isspace] accepts, which [str.strip()]
    removes: the ASCII controls 9 to 13 and 28 to 31, the space, U+0085,
    U+00A0, U+1680, U+2000 to U+200A, U+2028, U+2029, U+202F, U+205F and
    U+3000. *)
Definition whitespace : list N :=
  [ 9; 10; 11; 12; 13; 28; 29; 30; 31; 32; 133; 160; 5760;
    8192; 8193; 8194; 8195; 8196; 8197; 8198; 8199; 8200; 8201; 8202;
    8232; 8233; 8239; 8287; 12288 ]%N.

Definition is_whitespace (ch : string) : bool :=
  existsb (fun cp => String.eqb ch (utf8 cp)) whitespace.

Fixpoint drop_whitespace (cs : list string) : list string :=
  match cs with
  | [] => []
  | ch :: cs' => if is_whitespace ch then drop_whitespace cs' else cs
  end.

Definition strip_chars (cs : list string) : list string :=
  reverse (drop_whitespace (reverse (drop_whitespace cs))).

(** [str.strip()]. *)
Definition strip (s : string) : string := unchars (strip_chars (chars s)).

(** [sep.join(parts)]. *)
Fixpoint join (sep : string) (parts : list string) : string :=
  match parts with
  | [] => ""
  | [p] => p
  | p :: rest => p +:+ sep +:+ join sep rest
  end.

(** [str(n)] for a non-negative integer. *)
Definition str_of_nat (n : nat) : string :=
  NilZero.string_of_uint (Nat.to_uint n).

Definition nat_of_str (s : string) : option nat :=
  option_map Nat.of_uint (NilZero.uint_of_string s).


(** [f"{x:.4f}"] for a finite float [x]: the decimal with four digits after
    the point that is nearest to [x], ties going to the even digit. *)
Definition round_half_even (q : Q) : Z :=
  let n := Qnum q in
  let d := Z.pos (Qden q) in
  let fl := (n / d)%Z in
  match (2 * (n mod d) ?= d)%Z with
  | Lt => fl
  | Gt => (fl + 1)%Z
  | Eq => if Z.even fl then fl else (fl + 1)%Z
  end.

Definition digit (n : Z) : ascii := ascii_of_nat (48 + Z.to_nat (n mod 10)).

Definition format_4f (q : Q) : string :=
  let r := round_half_even (q * 10000) in
  let a := Z.abs r in
  (if Qlt_le_dec q 0 then "-" else "")
    +:+ str_of_nat (Z.to_nat (a / 10000)) +:+ "."
    +:+ String (digit (a / 1000)) (String (digit (a / 100))
          (String (digit (a / 10)) (String (digit a) ""))).

(** ** The third-party code *)

(** The text-generation pipeline, once loaded: it samples, so it reads and
    advances the random generator. *)
Definition TextGenerator : Type :=
  GenCall -> N -> PyResult (list (gmap string string)) * N.

(** [CLIPProcessor(text=..., images=..., return_tensors="pt", padding=True)]. *)
Definition ClipProcessor : Type := list string -> Image -> PyResult ClipInputs.

(** The forward pass of [CLIPModel] on a batch holding one image, followed
    by [logits_per_image.softmax(dim=1)]: the one row of the tensor, the
    probabilities of the texts in the order of the texts. *)
Definition ClipModel : Type := ClipInputs -> PyResult (list Q).

(** The value of [t.squeeze().tolist()] for a tensor [t] of one row:
    [squeeze] removes every dimension of size 1, which leaves the list of
    the row, except for a row of one element, where it leaves a bare
    float. *)
Inductive Squeezed :=
| BareFloat (p : Q)
| FloatList (ps : list Q).

Definition squeeze_tolist (row : list Q) : Squeezed :=
  match row with
  | [p] => BareFloat p
  | _ => FloatList row
  end.

(** The three handles that the script keeps in module-level variables. *)
Record Models := mkModels {
  text_generator : TextGenerator;
  clip_model : ClipModel;
  clip_processor : ClipProcessor
}.

(** Everything the script imports. *)
Record Env := mkEnv {
  cuda_is_available : bool;
  pipeline : string -> string -> Z -> PyResult TextGenerator;
  CLIPModel_from_pretrained : string -> PyResult ClipModel;
  CLIPProcessor_from_pretrained : string -> PyResult ClipProcessor;
  Image_open : Upload -> PyResult Image;
  read_csv : Upload -> PyResult DataFrame;
  numeric_summary : Series -> Stats;
  object_summary : Series -> Stats
}.

(** ** Load AI models *)

Definition clip_name : string := "openai/clip-vit-base-patch32".

Definition load_models (env : Env) : M Models :=
  try_except
    (print "Starting to load models..." ;;;
     print "Loading text generation model (gpt2 for reliability)..." ;;;
     text_gen <- call (pipeline env "text-generation" "gpt2"
                         (if cuda_is_available env then 0 else -1)%Z) ;;
     print "Text generation model loaded successfully." ;;;
     print "Loading CLIP model and processor..." ;;;
     clip_m <- call (CLIPModel_from_pretrained env clip_name) ;;
     clip_p <- call (CLIPProcessor_from_pretrained env clip_name) ;;
     print "CLIP model and processor loaded successfully." ;;;
     print "All models loaded successfully." ;;;
     ret (mkModels text_gen clip_m clip_p))
    (fun e =>
       print ("Error loading models: " +:+ format_exc e) ;;;
       emit (StError ("Error loading models: " +:+ exn_msg e)) ;;;
       st_stop).

(** ** Core functionalities *)

Definition nl : string := String "010" "".

(** The f-string of [generate_innovation]. *)
Definition structured_prompt (prompt context : string) : string :=
  "Context: " +:+ capitalize context +:+ "." +:+ nl
  +:+ "Problem: " +:+ prompt +:+ "." +:+ nl
  +:+ "Provide a detailed, creative, and practical solution to the problem." +:+ nl
  +:+ "Describe its real-world applications and potential benefits.".

(** Calling the pipeline: the call is recorded, the generator advances. *)
Definition generate (tg : TextGenerator) (c : GenCall)
  : M (list (gmap string string)) :=
  fun w =>
    let '(r, g) := tg c (rng w) in
    call r (mkWorld (ui w) (stdout w) g (gen_calls w ++ [c])).

(** [xs[i]] on a list.  The stack frames of an exception raised by the
    script itself name the path of the deployed file; they are left
    empty. *)
Definition getitem_list {A} (xs : list A) (i : nat) : M A :=
  match xs !! i with
  | Some x => ret x
  | None => raise (mkExn "IndexError" "list index out of range" "")
  end.

(** [d[k]] on a dict. *)
Definition getitem_dict (d : gmap string string) (k : string) : M string :=
  match d !! k with
  | Some v => ret v
  | None => raise (mkExn "KeyError" ("'" +:+ k +:+ "'") "")
  end.

Definition generate_innovation (ms : Models) (prompt context : string)
  : M (option string) :=
  try_except
    (outputs <- generate (text_generator ms)
                  (mkGenCall (structured_prompt prompt context) 200 1 (7 # 10) (95 # 100)) ;;
     first <- getitem_list outputs 0 ;;
     text <- getitem_dict first "generated_text" ;;
     ret (Some (strip text)))
    (fun e =>
       emit (StError ("Error generating innovation idea: " +:+ format_exc e)) ;;;
       ret None).

(** The default of the parameter [context]. *)
Definition default_context : string := "general".

(** [sorted(l, key=key, reverse=True)]: the stable sort, greatest key
    first; elements with equal keys keep the order they have in [l]. *)
Fixpoint insert_desc {A} (key : A -> Q) (x : A) (l : list A) : list A :=
  match l with
  | [] => [x]
  | y :: l' =>
      if Qle_bool (key y) (key x) then x :: l else y :: insert_desc key x l'
  end.

Definition sorted_desc {A} (key : A -> Q) (l : list A) : list A :=
  foldr (insert_desc key) [] l.

Definition concepts : list string :=
  [ "healthcare"; "education"; "sustainability"; "robotics";
    "smart agriculture"; "business innovation"; "AI assistants";
    "wearable technology"; "gaming"; "urban development" ].

(** [zip(labels, probs)]: a float is not iterable. *)
Definition py_zip (labels : list string) (probs : Squeezed) : M (list (string * Q)) :=
  match probs with
  | FloatList ps => ret (zip labels ps)
  | BareFloat _ => raise (mkExn "TypeError" "'float' object is not iterable" "")
  end.

Definition analyze_image (ms : Models) (image : Image)
  : M (option (list (string * Q))) :=
  try_except
    (inputs <- call (clip_processor ms concepts image) ;;
     row <- call (clip_model ms inputs) ;;
     let probs := squeeze_tolist row in
     pairs <- py_zip concepts probs ;;
     let concept_scores := sorted_desc snd pairs in
     ret (Some (take 3 concept_scores)))
    (fun e =>
       emit (StError ("Error analyzing image: " +:+ format_exc e)) ;;;
       ret None).

Definition is_numeric (s : Series) : bool :=
  match s with
  | NumSeries _ => true
  | _ => false
  end.

(** [df.describe()] with its default arguments, as [pandas] documents it:
    the numeric columns when there is one, every column otherwise, and a
    [ValueError] for a table without columns.  The statistics themselves
    are the library's. *)
Definition describe (env : Env) (df : DataFrame) : PyResult (list (string * Stats)) :=
  match df_columns df with
  | [] => Raise (mkExn "ValueError" "Cannot describe a DataFrame without columns" "")
  | cols =>
      match filter (fun c => is_numeric c.2) cols with
      | [] => Ok (map (fun c => (c.1, object_summary env c.2)) cols)
      | nums => Ok (map (fun c => (c.1, numeric_summary env c.2)) nums)
      end
  end.

(** [.to_dict()]: one entry per column label, a later column replacing an
    earlier one of the same label. *)
Definition to_dict (described : list (string * Stats)) : gmap string Stats :=
  foldl (fun m kv => <[kv.1 := kv.2]> m) ∅ described.

Definition advisory : string :=
  "Based on these insights, predictive analytics models, trend analysis, or dashboards "
  +:+ "can be created to drive business or operational improvements.".

Definition analyze_data (env : Env) (df : DataFrame)
  : M (option string * option string * option (gmap string Stats) * option string) :=
  try_except
    (let summary := "The dataset contains **" +:+ str_of_nat (shape df).1
                    +:+ " rows** and **" +:+ str_of_nat (shape df).2
                    +:+ " columns**." in
     let insights := "Key columns: " +:+ join ", " (columns df) in
     described <- call (describe env df) ;;
     let stats := to_dict described in
     let use_case := advisory in
     ret (Some summary, Some insights, Some stats, Some use_case))
    (fun e =>
       emit (StError ("Error analyzing data: " +:+ format_exc e)) ;;;
       ret (None, None, None, None)).

(** An entry of the list of [generate_random_concept]: a dict with the two
    keys [idea] and [use_case]. *)
Record RandomConcept := mkConcept { idea : string; use_case : string }.

Definition random_concepts : list RandomConcept :=
  [ mkConcept "AI-powered IoT sensors to optimize energy usage in smart homes."
              "Reduces energy bills by up to 40% while ensuring sustainability.";
    mkConcept "AR glasses for real-time translation during conversations."
              "Breaks language barriers, enabling seamless global communication.";
    mkConcept "Wearable devices that monitor mental health and provide guided therapy sessions."
              "Helps individuals manage stress and anxiety proactively.";
    mkConcept "Personalized e-learning platforms using adaptive AI to match individual learning styles."
              "Improves student outcomes and engagement by 50%.";
    mkConcept "Blockchain-based food traceability system."
              "Ensures food safety by tracking the origin and quality of produce." ].

(** The names bound in the module when a function of the script runs: the
    imports of lines 1 to 6, the three handles and the functions. *)
Definition module_globals : list string :=
  [ "st"; "pipeline"; "CLIPProcessor"; "CLIPModel"; "Image"; "pd"; "torch";
    "traceback"; "load_models"; "text_generator"; "clip_model";
    "clip_processor"; "generate_innovation"; "analyze_image"; "analyze_data";
    "generate_random_concept" ].

(** Reading a global name: [NameError] when the module does not bind it. *)
Definition load_global (globals : list string) (name : string) : M unit :=
  if bool_decide (name ∈ globals) then ret tt
  else raise (mkExn "NameError" ("name '" +:+ name +:+ "' is not defined") "").

Definition next_rng (g : N) : N :=
  ((6364136223846793005 * g + 1442695040888963407) mod 2 ^ 64)%N.

(** [random.choice(xs)]. *)
Definition random_choice {A} (xs : list A) : M A :=
  fun w =>
    match xs !! N.to_nat (rng w mod N.of_nat (length xs)) with
    | Some x => (Return x, mkWorld (ui w) (stdout w) (next_rng (rng w)) (gen_calls w))
    | None => (Raised (mkExn "IndexError" "Cannot choose from an empty sequence" ""), w)
    end.

(** The body of [generate_random_concept], in a module binding [globals]. *)
Definition generate_random_concept_in (globals : list string) : M RandomConcept :=
  let concepts := random_concepts in
  load_global globals "random" ;;;
  random_choice concepts.

Definition generate_random_concept : M RandomConcept :=
  generate_random_concept_in module_globals.

(** ** Streamlit user interface *)

Inductive InputType := TextMode | ImageMode | CsvMode | RandomMode.

(** The state of the widgets in one run of the script: the two sidebar
    choices, the text area, whether the button of the chosen mode was
    pressed, and the uploaded files. *)
Record Request := mkRequest {
  input_type : InputType;
  context : string;
  user_input : string;
  button : bool;
  uploaded_image : option Upload;
  uploaded_csv : option Upload
}.

(** The choices of the context selector. *)
Definition contexts : list string :=
  [ "General"; "Healthcare"; "Education"; "Sustainability"; "Robotics";
    "Agriculture"; "Technology" ].

(** Truth value of a Python string, of an optional string, of a dict. *)
Definition truthy_str (s : string) : bool :=
  match s with
  | EmptyString => false
  | _ => true
  end.

Definition truthy_opt (o : option string) : bool :=
  match o with
  | Some s => truthy_str s
  | None => false
  end.

Definition truthy_dict (o : option (gmap string Stats)) : bool :=
  match o with
  | Some d => negb (bool_decide (d = ∅))
  | None => false
  end.

(** [for x in xs: body x]. *)
Fixpoint for_each {A} (xs : list A) (body : A -> M unit) : M unit :=
  match xs with
  | [] => ret tt
  | x :: xs' => body x ;;; for_each xs' body
  end.

Definition when (b : bool) (c : M unit) : M unit := if b then c else ret tt.

(** The line written for one ranked concept. *)
Definition concept_row (cs : string * Q) : string :=
  "- **" +:+ capitalize cs.1 +:+ "** — Probability: " +:+ format_4f cs.2.

Definition text_mode (ms : Models) (rq : Request) : M unit :=
  when (button rq)
    (if truthy_str (strip (user_input rq)) then
       output <- generate_innovation ms (user_input rq) (context rq) ;;
       when (truthy_opt output)
         (emit (StSuccess "🎯 Innovative Solution:") ;;;
          emit (StWrite (default "" output)))
     else emit (StWarning "Please enter a valid problem statement or idea.")).

Definition image_mode (env : Env) (ms : Models) (rq : Request) : M unit :=
  match uploaded_image rq with
  | None => ret tt
  | Some up =>
      image <- call (Image_open env up) ;;
      emit (StImage "Uploaded Image") ;;;
      when (button rq)
        (ranked <- analyze_image ms image ;;
         match ranked with
         | Some (((top_concept, _) :: _) as scores) =>
             emit (StSuccess "🔍 Top Relevant Concepts:") ;;;
             for_each scores (fun cs => emit (StWrite (concept_row cs))) ;;;
             output <- generate_innovation ms (top_concept +:+ " innovation") (context rq) ;;
             when (truthy_opt output)
               (emit (StMarkdown "✨ **Generated Idea:**") ;;;
                emit (StWrite (default "" output)))
         | _ => ret tt
         end)
  end.

Definition csv_mode (env : Env) (rq : Request) : M unit :=
  match uploaded_csv rq with
  | None => ret tt
  | Some up =>
      df <- call (read_csv env up) ;;
      emit (StDataframe df) ;;;
      when (button rq)
        (r <- analyze_data env df ;;
         let '(summary, insights, stats, use_case) := r in
         when (truthy_opt summary && truthy_opt insights
               && truthy_dict stats && truthy_opt use_case)
           (emit (StSuccess "📊 Data Insights:") ;;;
            emit (StWrite (default "" summary)) ;;;
            emit (StWrite (default "" insights)) ;;;
            emit (StJson (default ∅ stats)) ;;;
            emit (StMarkdown "💡 **Use Case:**") ;;;
            emit (StWrite (default "" use_case))))
  end.

Definition random_mode : M unit :=
  concept <- generate_random_concept ;;
  emit (StMarkdown "🎲 **Random Concept:**") ;;;
  emit (StWrite ("💡 Idea: " +:+ idea concept)) ;;;
  emit (StWrite ("🌍 Use Case: " +:+ use_case concept)).

(** One run of the script, from its first line to its last. *)
Definition script (env : Env) (rq : Request) : M unit :=
  emit (StPageConfig "AI Innovation Generator") ;;;
  ms <- load_models env ;;
  emit (StTitle "🚀 AI Innovation Generator") ;;;
  emit (StMarkdown "Unleash the power of **AI-generated solutions** for real-world problems.") ;;;
  match input_type rq with
  | TextMode => text_mode ms rq
  | ImageMode => image_mode env ms rq
  | CsvMode => csv_mode env rq
  | RandomMode => when (button rq) random_mode
  end ;;;
  emit (StWrite "---") ;;;
  emit (StCaption "Powered by Hugging Face Transformers, CLIP, and Streamlit. Built for meaningful innovations!").

Definition world0 : World := mkWorld [] [] 0 [].

(** ** Sample third-party code

    A concrete world to run the script in: a pipeline that returns the
    prompt followed by a fixed continuation, a CLIP model with a fixed
    distribution that has ties, a two-column table. *)

Definition demo_generator : TextGenerator :=
  fun c g =>
    if (num_return_sequences c <? 1)%Z then
      (Raise (mkExn "ValueError" "num_return_sequences has to be at least 1" ""), g)
    else
      (Ok (replicate (Z.to_nat (num_return_sequences c))
             {[ "generated_text" := gc_prompt c +:+ " Collect it with floating nets. " ]}),
       next_rng g).

Definition demo_processor : ClipProcessor :=
  fun texts img =>
    Ok (mkClipInputs (map (fun t => [N.of_nat (String.length t)]) texts) []).

Definition demo_probs : list Q :=
  [ 1 # 10; 3 # 10; 1 # 20; 3 # 10; 1 # 20; 1 # 20; 1 # 20; 1 # 20; 1 # 40; 1 # 40 ].

Definition demo_clip : ClipModel := fun _ => Ok demo_probs.

Definition demo_models : Models := mkModels demo_generator demo_clip demo_processor.

Definition demo_table : DataFrame :=
  mkDataFrame 2 [ ("age", NumSeries [Some (31 # 1); Some (45 # 1)]);
                  ("name", ObjSeries [Some "Ada"; Some "Alan"]) ].

Definition demo_count (s : Series) : Stats :=
  [ ("count", Some (inject_Z (Z.of_nat (series_length s)))) ].

Definition demo_env : Env :=
  mkEnv false
    (fun _ _ _ => Ok demo_generator)
    (fun _ => Ok demo_clip)
    (fun _ => Ok demo_processor)
    (fun up => Ok (mkImage 1 1 (file_bytes up)))
    (fun _ => Ok demo_table)
    demo_count demo_count.

(** The same, with a network failure while fetching the CLIP weights. *)
Definition offline_env : Env :=
  mkEnv false
    (fun _ _ _ => Ok demo_generator)
    (fun _ => Raise (mkExn "OSError" "Can't load the model" ""))
    (fun _ => Ok demo_processor)
    (fun up => Ok (mkImage 1 1 (file_bytes up)))
    (fun _ => Ok demo_table)
    demo_count demo_count.

Definition demo_upload : Upload := mkUpload "photo.png" [137; 80; 78; 71]%N.
Definition demo_image : Image := mkImage 1 1 [137; 80; 78; 71]%N.

(** ** Notions used by the statements *)

(** [sub] occurs in [s]. *)
Definition contains (s sub : string) : Prop :=
  exists pre post, s = pre +:+ sub +:+ post.

Definition instruction_1 : string :=
  "Provide a detailed, creative, and practical solution to the problem.".
Definition instruction_2 : string :=
  "Describe its real-world applications and potential benefits.".

(** The call that [generate_innovation] makes. *)
Definition innovation_call (prompt context : string) : GenCall :=
  mkGenCall (structured_prompt prompt context) 200 1 (7 # 10) (95 # 100).

(** The world after reporting [e] from the [except] clause. *)
Definition report (prefix : string) (e : PyExn) (w : World) : World :=
  mkWorld (ui w ++ [StError (prefix +:+ format_exc e)]) (stdout w) (rng w) (gen_calls w).

(** The world after the pipeline has been called and has left the random
    generator in state [g]. *)
Definition called (c : GenCall) (g : N) (w : World) : World :=
  mkWorld (ui w) (stdout w) g (gen_calls w ++ [c]).

(** The contract of the text-generation pipeline with its default
    [return_full_text]: a call that returns gives as many sequences as were
    asked for, each a dict whose [generated_text] is the prompt followed by
    the continuation. *)
Definition returns_full_text (tg : TextGenerator) : Prop :=
  forall c g outputs g',
    tg c g = (Ok outputs, g') ->
    Z.of_nat (length outputs) = num_return_sequences c
    /\ forall d, d ∈ outputs ->
         exists continuation,
           d !! "generated_text" = Some (gc_prompt c +:+ continuation).

(** One of the three acquisitions of [load_models] raises. *)
Definition acquisition_raises (env : Env) (e : PyExn) : Prop :=
  let device := (if cuda_is_available env then 0 else -1)%Z in
  pipeline env "text-generation" "gpt2" device = Raise e
  \/ ((exists tg, pipeline env "text-generation" "gpt2" device = Ok tg)
      /\ (CLIPModel_from_pretrained env clip_name = Raise e
          \/ ((exists m, CLIPModel_from_pretrained env clip_name = Ok m)
              /\ CLIPProcessor_from_pretrained env clip_name = Raise e))).

Definition summary_text (rows cols : nat) : string :=
  "The dataset contains **" +:+ str_of_nat rows +:+ " rows** and **"
    +:+ str_of_nat cols +:+ " columns**.".

(** A table of five rows and three columns, as in the specification. *)
Definition five_by_three : DataFrame :=
  mkDataFrame 5
    [ ("id", NumSeries [Some (1 # 1); Some (2 # 1); Some (3 # 1); Some (4 # 1); Some (5 # 1)]);
      ("city", ObjSeries [Some "Pune"; Some "Agra"; Some "Goa"; None; Some "Kochi"]);
      ("score", NumSeries [Some (7 # 2); None; Some (9 # 1); Some (1 # 4); Some (0 # 1)]) ].

(** The numeric columns of a table, in order. *)
Definition numeric_columns (df : DataFrame) : list (string * Series) :=
  filter (fun c => is_numeric c.2) (df_columns df).

(** A text shows a percentage when it carries the percent sign. *)
Fixpoint mentions (c : ascii) (s : string) : bool :=
  match s with
  | EmptyString => false
  | String x s' => Ascii.eqb x c || mentions c s'
  end.

Definition shown_as_percentage (row : string) : bool := mentions "%" row.

Definition demo_image_request : Request :=
  mkRequest ImageMode "Sustainability" "" true (Some demo_upload) None.

(** [x] stands before [y] in [l]. *)
Definition precedes {A} (l : list A) (x y : A) : Prop :=
  exists i j, i < j /\ l !! i = Some x /\ l !! j = Some y.

(** The order of the result of a stable sort of [l], greatest key first:
    a greater key, or an equal key and an earlier place in [l]. *)
Definition before {A} (key : A -> Q) (l : list A) (x y : A) : Prop :=
  (key y < key x)%Q \/ ((key x == key y)%Q /\ precedes l x y).

(** The world after rendering [evs]. *)
Definition rendered (evs : list UiEvent) (w : World) : World :=
  mkWorld (ui w ++ evs) (stdout w) (rng w) (gen_calls w).

(** The world after printing [lines]. *)
Definition logged (lines : list string) (w : World) : World :=
  mkWorld (ui w) (stdout w ++ lines) (rng w) (gen_calls w).

(** A piece of the script that always ends normally, having only added to
    what is rendered. *)
Definition returns {A} (c : M A) : Prop :=
  forall w, exists a w' evs, c w = (Return a, w') /\ ui w' = ui w ++ evs.

(** The three acquisitions of [load_models] return the handles [ms]. *)
Definition models_loaded (env : Env) (ms : Models) : Prop :=
  pipeline env "text-generation" "gpt2" (if cuda_is_available env then 0 else -1)%Z
    = Ok (text_generator ms)
  /\ CLIPModel_from_pretrained env clip_name = Ok (clip_model ms)
  /\ CLIPProcessor_from_pretrained env clip_name = Ok (clip_processor ms).

(** What [load_models] prints when nothing raises. *)
Definition load_log : list string :=
  [ "Starting to load models...";
    "Loading text generation model (gpt2 for reliability)...";
    "Text generation model loaded successfully.";
    "Loading CLIP model and processor...";
    "CLIP model and processor loaded successfully.";
    "All models loaded successfully." ].

(** What the script renders before and after the chosen mode. *)
Definition header : list UiEvent :=
  [ StPageConfig "AI Innovation Generator";
    StTitle "🚀 AI Innovation Generator";
    StMarkdown "Unleash the power of **AI-generated solutions** for real-world problems." ].

Definition footer : list UiEvent :=
  [ StWrite "---";
    StCaption "Powered by Hugging Face Transformers, CLIP, and Streamlit. Built for meaningful innovations!" ].

(** The branch of the script for the chosen mode. *)
Definition dispatch (env : Env) (ms : Models) (rq : Request) : M unit :=
  match input_type rq with
  | TextMode => text_mode ms rq
  | ImageMode => image_mode env ms rq
  | CsvMode => csv_mode env rq
  | RandomMode => when (button rq) random_mode
  end.

(** An exception that a run of the script with this request meets outside
    every [try]: that of [Image.open], that of [pd.read_csv], or that of
    [generate_random_concept]. *)
Definition escaping (env : Env) (rq : Request) : option PyExn :=
  match input_type rq with
  | TextMode => None
  | ImageMode =>
      match uploaded_image rq with
      | Some up => match Image_open env up with Raise e => Some e | Ok _ => None end
      | None => None
      end
  | CsvMode =>
      match uploaded_csv rq with
      | Some up => match read_csv env up with Raise e => Some e | Ok _ => None end
      | None => None
      end
  | RandomMode =>
      if button rq then Some (mkExn "NameError" "name 'random' is not defined" "")
      else None
  end.

(** A piece of the script that neither calls the text-generation pipeline
    nor draws from the random generator, however it ends. *)
Definition quiet {A} (c : M A) : Prop :=
  forall w, gen_calls (c w).2 = gen_calls w /\ rng (c w).2 = rng w.

(** A text of ASCII characters only. *)
Fixpoint ascii_only (s : string) : bool :=
  match s with
  | EmptyString => true
  | String c s' => (N_of_ascii c <? 128)%N && ascii_only s'
  end.

Definition lowercase_letters : string := "abcdefghijklmnopqrstuvwxyz".
Definition uppercase_letters : string := "ABCDEFGHIJKLMNOPQRSTUVWXYZ".

(** The letter of [target] at the place that [c] has in [source]; [c]
    itself when it does not occur in [source]. *)
Fixpoint translate (source target : string) (c : ascii) : ascii :=
  match source, target with
  | String a source', String b target' =>
      if Ascii.eqb c a then b else translate source' target' c
  | _, _ => c
  end.

Fixpoint translate_all (source target s : string) : string :=
  match s with
  | EmptyString => EmptyString
  | String c s' => String (translate source target c) (translate_all source target s')
  end.

(** What [str.capitalize] gives on an ASCII text, told by the alphabet:
    the first character goes from the lower-case to the upper-case
    alphabet, the others from the upper-case to the lower-case one. *)
Definition ascii_capitalized (s : string) : string :=
  match s with
  | EmptyString => EmptyString
  | String c s' =>
      String (translate lowercase_letters uppercase_letters c)
             (translate_all uppercase_letters lowercase_letters s')
  end.


(** A text made of white space only. *)
Definition blank (text : string) : Prop :=
  Forall (fun ch => is_whitespace ch = true) (chars text).

(** [s] starts with [pre]; [s] ends with [suf]. *)
Definition starts_with (s pre : string) : Prop := exists rest, s = pre +:+ rest.
Definition ends_with (s suf : string) : Prop := exists front, s = front +:+ suf.

(** ** Facts about the monad and about text *)

Lemma append_assoc (a b c : string) : (a +:+ b) +:+ c = a +:+ b +:+ c.
Proof.
  induction a as [|x a IH]; [reflexivity|].
  change (String x ((a +:+ b) +:+ c) = String x (a +:+ b +:+ c)).
  now rewrite IH.
Qed.

Lemma emit_run ev w :
  emit ev w = (Return tt, mkWorld (ui w ++ [ev]) (stdout w) (rng w) (gen_calls w)).
Proof. reflexivity. Qed.

(** * The random concept picker *)

(** C1 (generate_random_concept): the claim says that every invocation
    returns one of the five entries and never raises.  The module does not
    import [random], so every invocation raises [NameError] before anything
    is chosen, and leaves the world as it was. *)
Theorem generate_random_concept_raises (w : World) :
  generate_random_concept w
  = (Raised (mkExn "NameError" "name 'random' is not defined" ""), w).
Proof. reflexivity. Qed.

(** In a module that does bind [random], the same body returns one of the
    five entries. *)
Lemma generate_random_concept_in_bound (globals : list string) (w : World) :
  "random" ∈ globals ->
  exists c w', generate_random_concept_in globals w = (Return c, w')
               /\ c ∈ random_concepts /\ length random_concepts = 5.
Proof.
  intros Hin. unfold generate_random_concept_in, bind, load_global.
  rewrite bool_decide_eq_true_2 by exact Hin. simpl.
  unfold random_choice.
  assert (Hlt : N.to_nat (rng w mod N.of_nat (length random_concepts)) < length random_concepts).
  { simpl. pose proof (N.mod_upper_bound (rng w) 5). lia. }
  apply lookup_lt_is_Some_2 in Hlt. destruct Hlt as [c Hc].
  rewrite Hc. eexists _, _. split; [reflexivity|]. split; [|reflexivity].
  eapply list_elem_of_lookup_2, Hc.
Qed.

(** The Random Concept mode of the interface, with the button pressed and
    the models loaded, ends in the uncaught [NameError]. *)
Lemma random_mode_raises :
  (script demo_env (mkRequest RandomMode "General" "" true None None) world0).1
  = Raised (mkExn "NameError" "name 'random' is not defined" "").
Proof. vm_compute. reflexivity. Qed.

(** * The innovation generator *)

(** One run of [generate_innovation], case by case on what the pipeline
    answers. *)
Lemma generate_innovation_run (ms : Models) (prompt context : string) (w : World) :
  generate_innovation ms prompt context w =
  let c := innovation_call prompt context in
  let w1 := called c (text_generator ms c (rng w)).2 w in
  let failed e := (Return None, report "Error generating innovation idea: " e w1) in
  match (text_generator ms c (rng w)).1 with
  | Raise e => failed e
  | Ok outputs =>
      match outputs !! 0 with
      | None => failed (mkExn "IndexError" "list index out of range" "")
      | Some first =>
          match first !! "generated_text" with
          | None => failed (mkExn "KeyError" "'generated_text'" "")
          | Some text => (Return (Some (strip text)), w1)
          end
      end
  end.
Proof.
  unfold generate_innovation, try_except, bind, generate, innovation_call, called.
  destruct (text_generator ms _ (rng w)) as [[outputs|e] g]; simpl; [|reflexivity].
  unfold getitem_list, getitem_dict.
  destruct (outputs !! 0) as [first|]; simpl; [|reflexivity].
  destruct (first !! "generated_text") as [text|]; reflexivity.
Qed.

(** [generate_innovation] always returns: nothing it calls raises past its
    [except] clause. *)
Lemma generate_innovation_returns (ms : Models) (prompt context : string) (w : World) :
  exists o w', generate_innovation ms prompt context w = (Return o, w').
Proof.
  rewrite generate_innovation_run. cbv zeta.
  destruct (text_generator ms _ (rng w)).1 as [outputs|e]; [|eauto].
  destruct (outputs !! 0) as [first|]; [|eauto].
  destruct (first !! "generated_text"); eauto.
Qed.

Lemma to_upper_translate (c : ascii) :
  to_upper c = translate lowercase_letters uppercase_letters c.
Proof. destruct c as [[] [] [] [] [] [] [] []]; vm_compute; reflexivity. Qed.

Lemma to_lower_translate (c : ascii) :
  to_lower c = translate uppercase_letters lowercase_letters c.
Proof. destruct c as [[] [] [] [] [] [] [] []]; vm_compute; reflexivity. Qed.

Lemma lower_translate_all (s : string) :
  lower s = translate_all uppercase_letters lowercase_letters s.
Proof.
  induction s as [|c s IH]; [reflexivity|].
  cbn [lower translate_all]. now rewrite IH, to_lower_translate.
Qed.

(** [capitalize] moves the first character to the upper-case alphabet and
    the others to the lower-case alphabet. *)
Lemma capitalize_ascii_capitalized (s : string) : capitalize s = ascii_capitalized s.
Proof.
  destruct s as [|c s]; [reflexivity|].
  unfold capitalize, ascii_capitalized.
  now rewrite to_upper_translate, lower_translate_all.
Qed.

(** C3 (generate_innovation): whatever the problem and the context, the
    pipeline receives exactly one call.  Its prompt is "Context: ", the
    capitalized context, a full stop, then "Problem: ", the problem
    verbatim, a full stop, then the two instruction sentences, each on a
    line of its own; for a context of ASCII characters the capitalized
    context is the context with its first character upper-cased and the
    others lower-cased.  Its keyword arguments are a maximum length of 200,
    one returned sequence, temperature 0.7 and nucleus cutoff 0.95. *)
Theorem generate_innovation_invokes (ms : Models) (problem ctx : string) (w : World) :
  exists (c : GenCall) (capitalized : string),
    gen_calls (generate_innovation ms problem ctx w).2 = gen_calls w ++ [c]
    /\ gc_prompt c = "Context: " +:+ capitalized +:+ "." +:+ nl
                       +:+ "Problem: " +:+ problem +:+ "." +:+ nl
                       +:+ instruction_1 +:+ nl +:+ instruction_2
    /\ (ascii_only ctx = true -> capitalized = ascii_capitalized ctx)
    /\ contains (gc_prompt c) capitalized
    /\ contains (gc_prompt c) problem
    /\ max_length c = 200%Z
    /\ num_return_sequences c = 1%Z
    /\ (temperature c == 7 # 10)%Q
    /\ (top_p c == 95 # 100)%Q.
Proof.
  exists (innovation_call problem ctx), (capitalize ctx).
  split.
  - rewrite generate_innovation_run. cbv zeta.
    destruct (text_generator ms _ (rng w)).1 as [outputs|e]; [|reflexivity].
    destruct (outputs !! 0) as [first|]; [|reflexivity].
    destruct (first !! "generated_text"); reflexivity.
  - split; [reflexivity|].
    split; [intros _; apply capitalize_ascii_capitalized|]. split.
    { exists "Context: ", ("." +:+ nl +:+ "Problem: " +:+ problem +:+ "." +:+ nl
                           +:+ instruction_1 +:+ nl +:+ instruction_2).
      reflexivity. }
    split.
    { exists ("Context: " +:+ capitalize ctx +:+ "." +:+ nl +:+ "Problem: "),
             ("." +:+ nl +:+ instruction_1 +:+ nl +:+ instruction_2).
      unfold innovation_call, structured_prompt, gc_prompt.
      now rewrite !append_assoc. }
    repeat split; reflexivity.
Qed.

(** C3, on the default context "general", whose capital is set, and on a
    context in capitals, which are lowered after the first. *)
Lemma generate_innovation_invokes_witness :
  ascii_only "general" = true
  /\ ascii_capitalized "general" = "General"
  /\ ascii_capitalized "AI assistants" = "Ai assistants"
  /\ exists c,
       gen_calls (generate_innovation demo_models "Reduce plastic waste in oceans"
                    "general" world0).2 = [c]
       /\ gc_prompt c = "Context: General." +:+ nl
                          +:+ "Problem: Reduce plastic waste in oceans." +:+ nl
                          +:+ "Provide a detailed, creative, and practical solution to the problem."
                          +:+ nl
                          +:+ "Describe its real-world applications and potential benefits."
       /\ max_length c = 200%Z
       /\ num_return_sequences c = 1%Z.
Proof.
  split; [reflexivity|]. split; [reflexivity|]. split; [reflexivity|].
  destruct (generate_innovation_invokes demo_models "Reduce plastic waste in oceans"
              "general" world0)
    as (c & capitalized & Hcalls & Hprompt & Hcap & _ & _ & Hmax & Hnum & _).
  exists c. split; [exact Hcalls|]. split; [|split; assumption].
  rewrite Hprompt, (Hcap eq_refl). reflexivity.
Defined.

(** The scenario of the specification: the context "Sustainability" is its
    own capitalization, and the prompt reads as follows. *)
Example structured_prompt_scenario :
  structured_prompt "Reduce plastic waste in oceans" "Sustainability"
  = "Context: Sustainability." +:+ nl
    +:+ "Problem: Reduce plastic waste in oceans." +:+ nl
    +:+ instruction_1 +:+ nl +:+ instruction_2.
Proof. reflexivity. Qed.

Lemma unchars_chars s : unchars (chars s) = s.
Proof.
  induction s as [|c s IH]; [reflexivity|]. simpl.
  destruct (chars s) as [|g gs].
  - simpl in *. now rewrite <- IH.
  - destruct (starts_with_continuation g); simpl in *; now rewrite <- IH.
Qed.

Lemma chars_nonempty s : Forall (fun ch => ch <> "") (chars s).
Proof.
  induction s as [|c s IH]; [constructor|]. simpl.
  destruct (chars s) as [|g gs]; [repeat constructor; discriminate|].
  inversion IH; subst.
  destruct (starts_with_continuation g); repeat constructor; try discriminate; assumption.
Qed.

Lemma drop_whitespace_spec cs :
  exists lead, cs = lead ++ drop_whitespace cs
    /\ Forall (fun ch => is_whitespace ch = true) lead
    /\ (forall ch, head (drop_whitespace cs) = Some ch -> is_whitespace ch = false).
Proof.
  induction cs as [|ch cs (lead & Heq & Hlead & Hhead)]; simpl.
  - exists []. repeat split; [constructor | discriminate].
  - destruct (is_whitespace ch) eqn:Hws.
    + exists (ch :: lead). split; [simpl; now rewrite <- Heq|]. split; [now constructor | exact Hhead].
    + exists []. split; [reflexivity|]. split; [constructor|].
      intros ch' H. injection H as <-. exact Hws.
Qed.

Lemma strip_chars_spec cs :
  exists lead trail,
    cs = lead ++ strip_chars cs ++ trail
    /\ Forall (fun ch => is_whitespace ch = true) lead
    /\ Forall (fun ch => is_whitespace ch = true) trail
    /\ (forall ch, head (strip_chars cs) = Some ch -> is_whitespace ch = false)
    /\ (forall ch, last (strip_chars cs) = Some ch -> is_whitespace ch = false).
Proof.
  unfold strip_chars.
  destruct (drop_whitespace_spec cs) as (lead & Heq & Hlead & Hhead).
  set (m := drop_whitespace cs) in *.
  destruct (drop_whitespace_spec (reverse m)) as (t & Heqt & Ht & Hlast).
  set (r := drop_whitespace (reverse m)) in *.
  assert (Hm : m = reverse r ++ reverse t).
  { rewrite <- (reverse_involutive m), Heqt, reverse_app. reflexivity. }
  exists lead, (reverse t). split; [now rewrite <- Hm|].
  split; [exact Hlead|]. split; [now apply Forall_reverse|]. split.
  - intros ch Hch. apply Hhead. rewrite Hm.
    destruct (reverse r); [discriminate Hch | exact Hch].
  - intros ch Hch. apply Hlast. now rewrite last_reverse in Hch.
Qed.

Lemma unchars_nil cs : Forall (fun ch => ch <> "") cs -> unchars cs = "" -> cs = [].
Proof.
  intros Hne H. destruct cs as [|ch cs]; [reflexivity|].
  inversion Hne; subst. simpl in H. destruct ch; [congruence | discriminate H].
Qed.

Lemma drop_whitespace_all cs :
  Forall (fun ch => is_whitespace ch = true) cs -> drop_whitespace cs = [].
Proof. induction 1 as [|ch cs Hch _ IH]; simpl; [reflexivity | now rewrite Hch]. Qed.

(** A text is stripped to nothing exactly when it is all white space. *)
Lemma strip_blank_iff s :
  strip s = "" <-> Forall (fun ch => is_whitespace ch = true) (chars s).
Proof.
  unfold strip. split.
  - intros H. destruct (strip_chars_spec (chars s)) as (lead & trail & Heq & Hl & Ht & _).
    assert (Hne : Forall (fun ch => ch <> "") (strip_chars (chars s))).
    { pose proof (chars_nonempty s) as Hc. rewrite Heq in Hc.
      apply Forall_app in Hc as [_ Hc]. now apply Forall_app in Hc as [Hc _]. }
    rewrite (unchars_nil _ Hne H) in Heq. rewrite Heq. apply Forall_app. now split.
  - intros H. unfold strip_chars. rewrite (drop_whitespace_all _ H). reflexivity.
Qed.

Lemma chars_head c s : exists g gs, chars (String c s) = String c g :: gs.
Proof.
  simpl. destruct (chars s) as [|g gs]; [eauto|].
  destruct (starts_with_continuation g); eauto.
Qed.

(** A text whose first byte starts no white space is not stripped to
    nothing. *)
Lemma strip_nonempty c s :
  (forall g, is_whitespace (String c g) = false) -> strip (String c s) <> "".
Proof.
  intros Hc H. apply strip_blank_iff in H.
  destruct (chars_head c s) as (g & gs & Heq). rewrite Heq in H.
  inversion H; subst. rewrite Hc in *. discriminate.
Qed.





Lemma demo_generator_full_text : returns_full_text demo_generator.
Proof.
  intros c g outputs g' H. unfold demo_generator in H.
  destruct (num_return_sequences c <? 1)%Z eqn:Hn; [discriminate|].
  injection H as <- <-. apply Z.ltb_ge in Hn. split.
  - rewrite length_replicate. lia.
  - intros d Hd. apply elem_of_replicate in Hd as [-> _].
    eexists. apply lookup_singleton_eq.
Qed.

(** With a pipeline that returns the prompt followed by its continuation,
    as the library does by default, the result is never empty: the prompt
    starts with a letter. *)
Lemma generate_innovation_full_text (ms : Models) (problem ctx : string) (w : World)
    (outputs : list (gmap string string)) (g : N) :
  returns_full_text (text_generator ms) ->
  text_generator ms (innovation_call problem ctx) (rng w) = (Ok outputs, g) ->
  exists result,
    generate_innovation ms problem ctx w
    = (Return (Some result), called (innovation_call problem ctx) g w)
    /\ result <> "".
Proof.
  intros Hfull Hcall.
  destruct (Hfull _ _ _ _ Hcall) as [Hlen Htexts].
  destruct outputs as [|first rest]; [discriminate Hlen|].
  destruct (Htexts first) as [continuation Htext]; [left|].
  eexists. split.
  - rewrite generate_innovation_run. cbv zeta. rewrite Hcall. cbn [fst snd].
    change ((first :: rest) !! 0) with (Some first). cbv beta iota.
    rewrite Htext. reflexivity.
  - apply (strip_nonempty "C"). reflexivity.
Qed.

(** * The model loader *)

(** C9 (load_models): when an acquisition raises, [load_models] renders the
    error and stops the script; it hands out no handle at all.  The script
    then ends stopped, having rendered nothing but the page configuration
    and the error, and having called no model: the dispatch of the
    interface is never reached. *)
Theorem load_models_fatal (env : Env) (rq : Request) (w : World) (e : PyExn) :
  acquisition_raises env e ->
  (exists w1,
      load_models env w = (Stopped, w1)
      /\ ui w1 = ui w ++ [StError ("Error loading models: " +:+ exn_msg e)]
      /\ gen_calls w1 = gen_calls w)
  /\ (forall ms w1, load_models env w <> (Return ms, w1))
  /\ (exists w2,
      script env rq w = (Stopped, w2)
      /\ ui w2 = ui w ++ [StPageConfig "AI Innovation Generator";
                           StError ("Error loading models: " +:+ exn_msg e)]
      /\ gen_calls w2 = gen_calls w).
Proof.
  unfold acquisition_raises. cbv zeta. intros H.
  unfold script, load_models, try_except, bind, call.
  destruct H as [H | [[tg Htg] [H | [[m Hm] H]]]].
  - rewrite H. simpl. split; [eexists; split; [reflexivity|]; split; reflexivity|].
    split; [intros ms w1; discriminate|].
    eexists; split; [reflexivity|]. split; [|reflexivity].
    simpl. now rewrite <- app_assoc.
  - rewrite Htg, H. simpl. split; [eexists; split; [reflexivity|]; split; reflexivity|].
    split; [intros ms w1; discriminate|].
    eexists; split; [reflexivity|]. split; [|reflexivity].
    simpl. now rewrite <- app_assoc.
  - rewrite Htg, Hm, H. simpl. split; [eexists; split; [reflexivity|]; split; reflexivity|].
    split; [intros ms w1; discriminate|].
    eexists; split; [reflexivity|]. split; [|reflexivity].
    simpl. now rewrite <- app_assoc.
Qed.

(** C9, with the CLIP weights out of reach. *)
Lemma load_models_fatal_witness :
  acquisition_raises offline_env (mkExn "OSError" "Can't load the model" "")
  /\ script offline_env (mkRequest TextMode "General" "Reduce plastic waste in oceans"
                           true None None) world0
     = (Stopped,
        mkWorld [StPageConfig "AI Innovation Generator";
                 StError "Error loading models: Can't load the model"]
          (stdout (load_models offline_env world0).2) 0 []).
Proof.
  assert (H : acquisition_raises offline_env (mkExn "OSError" "Can't load the model" "")).
  { right. split; [eexists; reflexivity|]. left. reflexivity. }
  split; [exact H|].
  destruct (load_models_fatal offline_env
              (mkRequest TextMode "General" "Reduce plastic waste in oceans" true None None)
              world0 _ H) as (_ & _ & w2 & Hrun & _ & _).
  rewrite Hrun. vm_compute in Hrun. injection Hrun as <-. reflexivity.
Defined.

(** When all three acquisitions return, so does [load_models], with the
    three handles. *)
Lemma load_models_ok (env : Env) (w : World) tg m p :
  pipeline env "text-generation" "gpt2" (if cuda_is_available env then 0 else -1)%Z = Ok tg ->
  CLIPModel_from_pretrained env clip_name = Ok m ->
  CLIPProcessor_from_pretrained env clip_name = Ok p ->
  exists w', load_models env w = (Return (mkModels tg m p), w')
             /\ ui w' = ui w /\ gen_calls w' = gen_calls w /\ rng w' = rng w.
Proof.
  intros Htg Hm Hp. unfold load_models, try_except, bind, call.
  rewrite Htg, Hm, Hp. simpl. eexists. split; [reflexivity|]. repeat split.
Qed.

(** * The tabular summarizer *)

(** One run of [analyze_data], by what [describe] answers. *)
Lemma analyze_data_run (env : Env) (df : DataFrame) (w : World) :
  analyze_data env df w =
  match describe env df with
  | Ok described =>
      (Return (Some (summary_text (df_nrows df) (length (df_columns df))),
               Some ("Key columns: " +:+ join ", " (columns df)),
               Some (to_dict described),
               Some advisory), w)
  | Raise e =>
      (Return (None, None, None, None), report "Error analyzing data: " e w)
  end.
Proof.
  unfold analyze_data, try_except, bind, call.
  destruct (describe env df); reflexivity.
Qed.

(** C10 (analyze_data): every run returns a 4-tuple that is either four
    values, with nothing rendered, or four [None], with the caught
    exception rendered as one error. *)
Theorem analyze_data_all_or_nothing (env : Env) (df : DataFrame) (w : World) :
  (exists summary insights stats advice,
      analyze_data env df w
      = (Return (Some summary, Some insights, Some stats, Some advice), w))
  \/ (exists e,
      analyze_data env df w
      = (Return (None, None, None, None), report "Error analyzing data: " e w)).
Proof.
  rewrite analyze_data_run. destruct (describe env df); [left | right]; eauto 6.
Qed.

(** The caught exception is that of a table without columns. *)
Lemma analyze_data_no_columns (env : Env) (n : nat) (w : World) :
  (analyze_data env (mkDataFrame n []) w).1 = Return (None, None, None, None).
Proof. reflexivity. Qed.

Lemma to_uint_not_Nil (n : nat) : Nat.to_uint n <> Decimal.Nil.
Proof.
  intros H. pose proof (Unsigned.of_to n) as Hn. rewrite H in Hn.
  simpl in Hn. subst n. discriminate H.
Qed.

(** The decimal text of a count reads back as that count. *)
Lemma nat_of_str_of_nat (n : nat) : nat_of_str (str_of_nat n) = Some n.
Proof.
  unfold nat_of_str, str_of_nat.
  rewrite NilZero.usu by apply to_uint_not_Nil.
  simpl. now rewrite Unsigned.of_to.
Qed.

(** C6 (analyze_data): on a table on which it succeeds, the summary
    sentence carries the two numbers of the table's shape, the insights
    sentence lists the column labels in the order of the table, and the
    fourth component is the fixed advisory sentence, which recommends
    predictive analytics and dashboards. *)
Theorem analyze_data_reports_shape (env : Env) (df : DataFrame) (w w' : World)
    (summary insights advice : string) (stats : gmap string Stats) :
  analyze_data env df w
    = (Return (Some summary, Some insights, Some stats, Some advice), w') ->
  exists rows cols,
    shape df = (rows, cols)
    /\ rows = df_nrows df
    /\ cols = length (df_columns df)
    /\ summary = "The dataset contains **" +:+ str_of_nat rows +:+ " rows** and **"
                   +:+ str_of_nat cols +:+ " columns**."
    /\ nat_of_str (str_of_nat rows) = Some rows
    /\ nat_of_str (str_of_nat cols) = Some cols
    /\ insights = "Key columns: " +:+ join ", " (map fst (df_columns df))
    /\ advice = advisory
    /\ contains advisory "predictive analytics"
    /\ contains advisory "dashboards".
Proof.
  rewrite analyze_data_run. destruct (describe env df); [|discriminate].
  intros H. injection H as <- <- <- <- <-.
  exists (df_nrows df), (length (df_columns df)).
  split; [reflexivity|]. split; [reflexivity|]. split; [reflexivity|].
  split; [reflexivity|].
  split; [apply nat_of_str_of_nat|]. split; [apply nat_of_str_of_nat|].
  split; [reflexivity|]. split; [reflexivity|]. split.
  - exists "Based on these insights, ",
      " models, trend analysis, or dashboards can be created to drive business or operational improvements.".
    reflexivity.
  - exists "Based on these insights, predictive analytics models, trend analysis, or ",
      " can be created to drive business or operational improvements.".
    reflexivity.
Qed.

(** C6, on the table of five rows and three columns. *)
Lemma analyze_data_reports_shape_witness :
  analyze_data demo_env five_by_three world0
  = (Return (Some "The dataset contains **5 rows** and **3 columns**.",
             Some "Key columns: id, city, score",
             Some (to_dict [("id", demo_count (NumSeries [Some (1 # 1); Some (2 # 1); Some (3 # 1); Some (4 # 1); Some (5 # 1)]));
                            ("score", demo_count (NumSeries [Some (7 # 2); None; Some (9 # 1); Some (1 # 4); Some (0 # 1)]))]),
             Some advisory), world0)
  /\ exists rows cols, shape five_by_three = (rows, cols) /\ rows = 5 /\ cols = 3.
Proof.
  assert (Hrun : analyze_data demo_env five_by_three world0
    = (Return (Some "The dataset contains **5 rows** and **3 columns**.",
             Some "Key columns: id, city, score",
             Some (to_dict [("id", demo_count (NumSeries [Some (1 # 1); Some (2 # 1); Some (3 # 1); Some (4 # 1); Some (5 # 1)]));
                            ("score", demo_count (NumSeries [Some (7 # 2); None; Some (9 # 1); Some (1 # 4); Some (0 # 1)]))]),
             Some advisory), world0)) by reflexivity.
  split; [exact Hrun|].
  destruct (analyze_data_reports_shape _ _ _ _ _ _ _ _ Hrun)
    as (rows & cols & Hshape & Hr & Hc & _).
  exists rows, cols. split; [exact Hshape|]. split; [exact Hr | exact Hc].
Defined.

(** The entries of the dict built by [to_dict], starting from [m]. *)
Lemma to_dict_acc_is_Some (l : list (string * Stats)) (m : gmap string Stats) (k : string) :
  is_Some (foldl (fun m kv => <[kv.1 := kv.2]> m) m l !! k)
  <-> is_Some (m !! k) \/ k ∈ l.*1.
Proof.
  revert m. induction l as [|[k' v'] l IH]; intros m; simpl.
  - split; [auto | intros [H|H]; [exact H | inversion H]].
  - rewrite IH. rewrite lookup_insert_is_Some. rewrite elem_of_cons.
    destruct (decide (k' = k)) as [->|Hne]; split; intros H.
    + right; left; reflexivity.
    + left; left; reflexivity.
    + destruct H as [[H|[_ H]]|H]; [congruence | auto | auto].
    + destruct H as [H|[H|H]]; [left; right; auto | congruence | auto].
Qed.

Lemma to_dict_acc_value (l : list (string * Stats)) (m : gmap string Stats) k v :
  foldl (fun m kv => <[kv.1 := kv.2]> m) m l !! k = Some v ->
  m !! k = Some v \/ (k, v) ∈ l.
Proof.
  revert m. induction l as [|[k' v'] l IH]; intros m; simpl; [auto|].
  intros H. apply IH in H as [H|H].
  - destruct (decide (k' = k)) as [->|Hne].
    + rewrite lookup_insert_eq in H. injection H as ->. right; left.
    + rewrite lookup_insert_ne in H by exact Hne. auto.
  - right; right; exact H.
Qed.

Lemma to_dict_is_Some (l : list (string * Stats)) (k : string) :
  is_Some (to_dict l !! k) <-> k ∈ l.*1.
Proof.
  unfold to_dict. rewrite to_dict_acc_is_Some, lookup_empty.
  split; [intros [[? H]|H]; [discriminate | exact H] | auto].
Qed.

Lemma to_dict_value (l : list (string * Stats)) k v :
  to_dict l !! k = Some v -> (k, v) ∈ l.
Proof.
  unfold to_dict. intros H. apply to_dict_acc_value in H as [H|H]; [|exact H].
  rewrite lookup_empty in H. discriminate.
Qed.

Lemma describe_numeric (env : Env) (df : DataFrame) :
  (exists c, c ∈ df_columns df /\ is_numeric c.2 = true) ->
  describe env df
  = Ok (map (fun c => (c.1, numeric_summary env c.2)) (numeric_columns df)).
Proof.
  intros (c & Hc & Hnum). unfold describe, numeric_columns.
  destruct (df_columns df) as [|c0 cols] eqn:Hcols; [inversion Hc|].
  destruct (filter _ (c0 :: cols)) as [|n nums] eqn:Hf; [|reflexivity].
  exfalso. assert (Hin : c ∈ filter (fun c => is_numeric c.2) (c0 :: cols)).
  { apply list_elem_of_filter. split; [now rewrite Hnum | exact Hc]. }
  rewrite Hf in Hin. inversion Hin.
Qed.

(** C7 (analyze_data): on a table that has a numeric column,
    [analyze_data] succeeds and the labels of its statistics mapping are
    exactly the labels of the numeric columns, each mapped to the statistics
    of a numeric column of that label; with one numeric and one text
    column, in either order, the mapping has size 1. *)
Theorem analyze_data_stats_numeric_only (env : Env) (df : DataFrame) (w : World) :
  (exists c, c ∈ df_columns df /\ is_numeric c.2 = true) ->
  exists summary insights stats advice,
    analyze_data env df w
    = (Return (Some summary, Some insights, Some stats, Some advice), w)
    /\ (forall k, is_Some (stats !! k)
                  <-> exists s, (k, s) ∈ df_columns df /\ is_numeric s = true)
    /\ (forall k v, stats !! k = Some v ->
          exists s, (k, s) ∈ df_columns df /\ is_numeric s = true
                    /\ v = numeric_summary env s)
    /\ (forall a xs b ys,
          df_columns df = [(a, NumSeries xs); (b, ObjSeries ys)]
          \/ df_columns df = [(b, ObjSeries ys); (a, NumSeries xs)] ->
          size stats = 1 /\ is_Some (stats !! a)).
Proof.
  intros Hnum. rewrite analyze_data_run, (describe_numeric env df Hnum).
  eexists _, _, _, _. split; [reflexivity|]. split; [|split].
  - intros k. rewrite to_dict_is_Some, <- list_fmap_compose.
    rewrite list_elem_of_fmap. unfold numeric_columns. split.
    + intros ([k' s] & -> & Hin). apply list_elem_of_filter in Hin as [Hs Hin].
      exists s. split; [exact Hin|]. simpl in Hs. now destruct (is_numeric s).
    + intros (s & Hin & Hs). exists (k, s). split; [reflexivity|].
      apply list_elem_of_filter. split; [simpl; now rewrite Hs | exact Hin].
  - intros k v Hkv. apply to_dict_value in Hkv.
    apply list_elem_of_fmap in Hkv as ([k' s] & Heq & Hin).
    injection Heq as -> ->. unfold numeric_columns in Hin.
    apply list_elem_of_filter in Hin as [Hs Hin].
    exists s. split; [exact Hin|]. split; [|reflexivity].
    simpl in Hs. now destruct (is_numeric s).
  - intros a xs b ys Hcols.
    assert (Hf : numeric_columns df = [(a, NumSeries xs)]).
    { unfold numeric_columns. destruct Hcols as [-> | ->]; reflexivity. }
    rewrite Hf. unfold to_dict. cbn [map foldl fst snd].
    rewrite insert_empty.
    split; [apply map_size_singleton | rewrite lookup_singleton_eq; eauto].
Qed.

(** C7, on the sample table: a numeric [age] and a textual [name]. *)
Lemma analyze_data_stats_numeric_only_witness :
  (exists c, c ∈ df_columns demo_table /\ is_numeric c.2 = true)
  /\ exists summary insights stats advice,
       analyze_data demo_env demo_table world0
       = (Return (Some summary, Some insights, Some stats, Some advice), world0)
       /\ size stats = 1
       /\ is_Some (stats !! "age")
       /\ stats !! "name" = None.
Proof.
  assert (Hnum : exists c, c ∈ df_columns demo_table /\ is_numeric c.2 = true).
  { exists ("age", NumSeries [Some (31 # 1); Some (45 # 1)]). split; [left | reflexivity]. }
  split; [exact Hnum|].
  destruct (analyze_data_stats_numeric_only demo_env demo_table world0 Hnum)
    as (summary & insights & stats & advice & Hrun & Hkeys & _ & Hsize).
  exists summary, insights, stats, advice. split; [exact Hrun|].
  destruct (Hsize "age" [Some (31 # 1); Some (45 # 1)] "name" [Some "Ada"; Some "Alan"])
    as [Hs Ha]; [left; reflexivity|].
  split; [exact Hs|]. split; [exact Ha|].
  destruct (stats !! "name") as [v|] eqn:Hname; [|reflexivity].
  exfalso. destruct (proj1 (Hkeys "name")) as (col & Hin & Hs'); [eauto|].
  apply elem_of_cons in Hin as [Heq|Hin]; [discriminate Heq|].
  apply elem_of_cons in Hin as [Heq|Hin]; [|inversion Hin].
  inversion Heq; subst; discriminate Hs'.
Defined.

(** * The image concept ranker *)

(** ** The stable sort *)

Section Sorting.
Context {A : Type} (key : A -> Q).

Lemma before_ge (l : list A) x y : before key l x y -> (key y <= key x)%Q.
Proof.
  intros [H | [H _]]; [now apply Qlt_le_weak|].
  rewrite H. apply Qle_refl.
Qed.

Lemma precedes_cons a (l : list A) x y : precedes l x y -> precedes (a :: l) x y.
Proof. intros (i & j & Hij & Hi & Hj). exists (S i), (S j). repeat split; [lia|..]; assumption. Qed.

Lemma precedes_head a (l : list A) y : y ∈ l -> precedes (a :: l) a y.
Proof.
  intros Hy. apply list_elem_of_lookup in Hy as [j Hj].
  exists 0, (S j). repeat split; [lia | exact Hj].
Qed.

Lemma before_cons a (l : list A) x y : before key l x y -> before key (a :: l) x y.
Proof. intros [H | [H Hp]]; [now left | right; split; [exact H | now apply precedes_cons]]. Qed.

Lemma insert_desc_perm x l : insert_desc key x l ≡ₚ x :: l.
Proof.
  induction l as [|y l IH]; simpl; [reflexivity|].
  destruct (Qle_bool (key y) (key x)); [reflexivity|].
  rewrite IH. apply perm_swap.
Qed.

Lemma sorted_desc_perm l : sorted_desc key l ≡ₚ l.
Proof.
  induction l as [|x l IH]; simpl; [reflexivity|].
  now rewrite insert_desc_perm, IH.
Qed.

(** Inserting an element that precedes all the others of equal key. *)
Lemma insert_desc_sorted (R : A -> A -> Prop) x s :
  (forall u v, R u v -> (key v <= key u)%Q) ->
  (forall v, v ∈ s -> (key v < key x)%Q \/ ((key x == key v)%Q -> R x v)) ->
  (forall u, (key x < key u)%Q -> R u x) ->
  (forall v, (key v < key x)%Q -> R x v) ->
  StronglySorted R s -> StronglySorted R (insert_desc key x s).
Proof.
  intros Hge Hx Hgt Hlt Hs. induction Hs as [|y s Hs IH Hy]; simpl.
  - repeat constructor.
  - destruct (Qle_bool (key y) (key x)) eqn:Hle.
    + apply Qle_bool_iff in Hle.
      assert (Hall : forall v, v ∈ y :: s -> R x v).
      { intros v Hv.
        assert (Hvx : (key v <= key x)%Q).
        { apply elem_of_cons in Hv as [-> | Hv]; [exact Hle|].
          rewrite Forall_forall in Hy.
          eapply Qle_trans; [apply Hge, Hy, Hv | exact Hle]. }
        apply Qle_lteq in Hvx as [Hvx | Hvx]; [now apply Hlt|].
        destruct (Hx v Hv) as [H | H]; [now apply Hlt|].
        apply H. now symmetry. }
      constructor; [now constructor|].
      apply Forall_forall. exact Hall.
    + assert (Hxy : (key x < key y)%Q).
      { apply Qnot_le_lt. intros H. apply Qle_bool_iff in H. congruence. }
      constructor.
      * apply IH. intros v Hv. apply Hx. now right.
      * apply Forall_forall. intros v Hv.
        rewrite insert_desc_perm in Hv.
        apply elem_of_cons in Hv as [-> | Hv].
        -- exact (Hgt y Hxy).
        -- rewrite Forall_forall in Hy. now apply Hy.
Qed.

Lemma StronglySorted_impl (R R' : A -> A -> Prop) s :
  (forall u v, R u v -> R' u v) -> StronglySorted R s -> StronglySorted R' s.
Proof.
  intros HR Hs. induction Hs as [|y s Hs IH Hy]; constructor; [exact IH|].
  eapply Forall_impl; [exact Hy | exact (HR y)].
Qed.

(** The sort is stable: its result is ordered by [before]. *)
Lemma sorted_desc_stable l : StronglySorted (before key l) (sorted_desc key l).
Proof.
  induction l as [|a l IH]; simpl; [constructor|].
  apply insert_desc_sorted.
  - intros u v. apply before_ge.
  - intros v Hv. right. intros Heq. right. split; [exact Heq|].
    apply precedes_head. now rewrite sorted_desc_perm in Hv.
  - intros u Hu. now left.
  - intros v Hv. now left.
  - eapply StronglySorted_impl; [|exact IH]. intros u v. apply before_cons.
Qed.

(** A strongly sorted list, read by positions. *)
Lemma StronglySorted_lookup (R : A -> A -> Prop) s i j x y :
  StronglySorted R s -> i < j -> s !! i = Some x -> s !! j = Some y -> R x y.
Proof.
  intros Hs. revert i j. induction Hs as [|z s Hs IH Hz]; intros i j Hij Hi Hj.
  - discriminate Hi.
  - destruct j as [|j]; [lia|]. destruct i as [|i]; simpl in *.
    + injection Hi as ->. rewrite Forall_forall in Hz.
      apply Hz. eapply list_elem_of_lookup_2, Hj.
    + apply (IH i j); [lia | assumption | assumption].
Qed.
End Sorting.

(** ** [analyze_image] *)

(** One run of [analyze_image], by what the processor and the model
    answer. *)
Lemma analyze_image_run (ms : Models) (image : Image) (w : World) :
  analyze_image ms image w =
  match clip_processor ms concepts image with
  | Raise e => (Return None, report "Error analyzing image: " e w)
  | Ok inputs =>
      match clip_model ms inputs with
      | Raise e => (Return None, report "Error analyzing image: " e w)
      | Ok row =>
          match squeeze_tolist row with
          | FloatList probs =>
              (Return (Some (take 3 (sorted_desc snd (zip concepts probs)))), w)
          | BareFloat _ =>
              (Return None,
               report "Error analyzing image: "
                 (mkExn "TypeError" "'float' object is not iterable" "") w)
          end
      end
  end.
Proof.
  unfold analyze_image, try_except, bind, call.
  destruct (clip_processor ms concepts image) as [inputs|e]; [|reflexivity].
  simpl. destruct (clip_model ms inputs) as [row|e]; [|reflexivity].
  simpl. destruct (squeeze_tolist row); reflexivity.
Qed.

Lemma squeeze_tolist_list (row : list Q) :
  length row <> 1 -> squeeze_tolist row = FloatList row.
Proof. destruct row as [|p [|q row]]; simpl; congruence. Qed.

(** The run when both calls return and the row is not a single
    probability. *)
Lemma analyze_image_ranked (ms : Models) (image : Image) (inputs : ClipInputs)
    (probs : list Q) (w : World) :
  clip_processor ms concepts image = Ok inputs ->
  clip_model ms inputs = Ok probs ->
  length probs <> 1 ->
  analyze_image ms image w
  = (Return (Some (take 3 (sorted_desc snd (zip concepts probs)))), w).
Proof.
  intros Hproc Hmodel Hlen.
  now rewrite analyze_image_run, Hproc, Hmodel, (squeeze_tolist_list _ Hlen).
Qed.

Lemma length_concepts_not_1 (probs : list Q) :
  length probs = length concepts -> length probs <> 1.
Proof. intros ->. discriminate. Qed.

Lemma concepts_NoDup : NoDup concepts.
Proof. apply (bool_decide_unpack (NoDup concepts)). vm_compute. exact I. Qed.

Lemma zip_lookup_Some (probs : list Q) i c p :
  zip concepts probs !! i = Some (c, p) ->
  concepts !! i = Some c /\ probs !! i = Some p.
Proof.
  intros H. apply lookup_zip_with_Some in H as (c' & p' & Heq & Hc & Hp).
  injection Heq as -> ->. now split.
Qed.

(** C2 (analyze_image): when the processor and the model return, with one
    probability per label, [analyze_image] returns exactly three pairs;
    each pairs a label of the vocabulary with the probability the model
    gave it; they stand in descending order of probability, pairs of equal
    probability in the order of the vocabulary; and every pair left out
    comes after each returned pair in that same order: its probability is
    smaller, or equal with a later place in the vocabulary.  The three
    pairs are thus the first three of the stable sort. *)
Theorem analyze_image_top3 (ms : Models) (image : Image) (inputs : ClipInputs)
    (probs : list Q) (w : World) :
  clip_processor ms concepts image = Ok inputs ->
  clip_model ms inputs = Ok probs ->
  length probs = length concepts ->
  exists ranked,
    analyze_image ms image w = (Return (Some ranked), w)
    /\ length concepts = 10
    /\ length ranked = 3
    /\ (forall c p, (c, p) ∈ ranked ->
          c ∈ concepts /\ exists a, concepts !! a = Some c /\ probs !! a = Some p)
    /\ (forall i j c1 p1 c2 p2,
          i < j -> ranked !! i = Some (c1, p1) -> ranked !! j = Some (c2, p2) ->
          (p2 < p1)%Q
          \/ ((p1 == p2)%Q
              /\ exists a b, a < b /\ concepts !! a = Some c1 /\ concepts !! b = Some c2))
    /\ (forall c p b c' p',
          (c, p) ∈ ranked ->
          concepts !! b = Some c' -> probs !! b = Some p' ->
          (c', p') ∉ ranked ->
          (p' < p)%Q
          \/ ((p == p')%Q
              /\ exists a, a < b /\ concepts !! a = Some c /\ probs !! a = Some p)).
Proof.
  intros Hproc Hmodel Hlen.
  set (sorted := sorted_desc snd (zip concepts probs)).
  assert (Hperm : sorted ≡ₚ zip concepts probs) by apply sorted_desc_perm.
  assert (Hstable : StronglySorted (before snd (zip concepts probs)) sorted)
    by apply sorted_desc_stable.
  assert (Hsl : length sorted = 10).
  { rewrite Hperm, length_zip, Hlen. reflexivity. }
  exists (take 3 sorted). split.
  { apply (analyze_image_ranked ms image inputs probs w Hproc Hmodel).
    now apply length_concepts_not_1. }
  split; [reflexivity|]. split; [rewrite length_take; lia|].
  split; [|split].
  - intros c p Hin. apply elem_of_take in Hin as (i & Hi & _).
    apply list_elem_of_lookup_2 in Hi. rewrite Hperm in Hi.
    apply list_elem_of_lookup in Hi as [a Ha].
    apply zip_lookup_Some in Ha as [Hc Hp].
    split; [eapply list_elem_of_lookup_2, Hc | eauto].
  - intros i j c1 p1 c2 p2 Hij Hi Hj.
    apply lookup_take_Some in Hi as [Hi _]. apply lookup_take_Some in Hj as [Hj _].
    destruct (StronglySorted_lookup _ _ _ _ _ _ Hstable Hij Hi Hj)
      as [Hlt | [Heq (a & b & Hab & Ha & Hb)]]; [left; exact Hlt|].
    right. split; [exact Heq|].
    apply zip_lookup_Some in Ha as [Ha _]. apply zip_lookup_Some in Hb as [Hb _].
    eauto.
  - intros c p b c' p' Hin Hc' Hp' Hout.
    apply elem_of_take in Hin as (i & Hi & Hi3).
    assert (Hz : zip concepts probs !! b = Some (c', p')).
    { apply lookup_zip_with_Some. eauto. }
    apply list_elem_of_lookup_2 in Hz. rewrite <- Hperm in Hz.
    apply list_elem_of_lookup in Hz as [j Hj].
    assert (Hj3 : 3 <= j).
    { destruct (decide (j < 3)) as [Hlt|]; [|lia].
      exfalso. apply Hout. apply elem_of_take. eauto. }
    assert (Hij : i < j) by lia.
    destruct (StronglySorted_lookup _ _ _ _ _ _ Hstable Hij Hi Hj)
      as [Hlt | [Heq (a & b' & Hab & Ha & Hb)]]; [left; exact Hlt|].
    right. split; [exact Heq|].
    apply zip_lookup_Some in Ha as [Ha Hpa]. apply zip_lookup_Some in Hb as [Hb _].
    assert (b' = b) by (eapply NoDup_lookup; [apply concepts_NoDup | exact Hb | exact Hc']).
    subst b'. eauto.
Qed.

(** C2, on the sample distribution: "education" and "robotics" tie at
    3/10 and come in the order of the vocabulary, before "healthcare"; and
    on ten equal probabilities, where the first three labels of the
    vocabulary are returned. *)
Lemma analyze_image_top3_witness :
  clip_processor demo_models concepts demo_image
    = Ok (mkClipInputs (map (fun t => [N.of_nat (String.length t)]) concepts) [])
  /\ clip_model demo_models
       (mkClipInputs (map (fun t => [N.of_nat (String.length t)]) concepts) [])
     = Ok demo_probs
  /\ length demo_probs = length concepts
  /\ analyze_image demo_models demo_image world0
     = (Return (Some [("education", 3 # 10); ("robotics", 3 # 10); ("healthcare", 1 # 10)]),
        world0)
  /\ analyze_image (mkModels demo_generator (fun _ => Ok (replicate 10 (1 # 10)))
                      demo_processor) demo_image world0
     = (Return (Some [("healthcare", 1 # 10); ("education", 1 # 10);
                      ("sustainability", 1 # 10)]), world0)
  /\ exists ranked,
       analyze_image demo_models demo_image world0 = (Return (Some ranked), world0)
       /\ length ranked = 3.
Proof.
  split; [reflexivity|]. split; [reflexivity|]. split; [reflexivity|].
  split; [reflexivity|]. split; [reflexivity|].
  destruct (analyze_image_top3 demo_models demo_image _ demo_probs world0
              eq_refl eq_refl eq_refl) as (ranked & Hrun & _ & Hlen & _).
  exists ranked. split; [exact Hrun | exact Hlen].
Defined.

(** * The Image mode of the interface *)

Lemma top3_length (probs : list Q) :
  length probs = length concepts ->
  length (take 3 (sorted_desc snd (zip concepts probs))) = 3.
Proof.
  intros Hlen. rewrite length_take, sorted_desc_perm, length_zip, Hlen. reflexivity.
Qed.

(** The loop that writes the rows. *)
Lemma for_each_write {A} (f : A -> string) (xs : list A) (w : World) :
  for_each xs (fun x => emit (StWrite (f x))) w
  = (Return tt,
     mkWorld (ui w ++ map (fun x => StWrite (f x)) xs) (stdout w) (rng w) (gen_calls w)).
Proof.
  revert w. induction xs as [|x xs IH]; intros w; simpl.
  - unfold ret. rewrite app_nil_r. now destruct w.
  - unfold bind. rewrite emit_run, IH. simpl. now rewrite <- app_assoc.
Qed.

(** [generate_innovation] returns, and only adds to what is rendered. *)
Lemma generate_innovation_extends (ms : Models) (prompt context : string) (w : World) :
  exists o w' evs,
    generate_innovation ms prompt context w = (Return o, w') /\ ui w' = ui w ++ evs.
Proof.
  rewrite generate_innovation_run. cbv zeta.
  destruct (text_generator ms _ (rng w)).1 as [outputs|e];
    [|eexists _, _, [_]; split; reflexivity].
  destruct (outputs !! 0) as [first|]; [|eexists _, _, [_]; split; reflexivity].
  destruct (first !! "generated_text");
    [eexists _, _, []; split; [reflexivity | simpl; now rewrite app_nil_r]
    |eexists _, _, [_]; split; reflexivity].
Qed.

(** The nearest integer, ties to even, is within one half. *)
Lemma round_half_even_near (q : Q) :
  (inject_Z (round_half_even q) - (1 # 2) <= q
   /\ q <= inject_Z (round_half_even q) + (1 # 2))%Q.
Proof.
  destruct q as [n d]. unfold round_half_even, Qle, Qminus, Qplus, Qopp, inject_Z.
  cbn [Qnum Qden].
  pose proof (Z.div_mod n (Z.pos d) ltac:(lia)) as Hdm.
  pose proof (Z.mod_pos_bound n (Z.pos d) ltac:(lia)) as Hr.
  set (fl := (n / Z.pos d)%Z) in *. set (r := (n mod Z.pos d)%Z) in *.
  clearbody fl r. rewrite !Pos2Z.inj_mul.
  destruct (2 * r ?= Z.pos d)%Z eqn:Hc.
  - apply Z.compare_eq in Hc. destruct (Z.even fl); split; nia.
  - apply -> Z.compare_lt_iff in Hc. split; nia.
  - apply -> Z.compare_gt_iff in Hc. split; nia.
Qed.

(** C5, as the specification states it, fails: for the sample image the
    three rows give each probability as a fraction with four decimals
    (3/10 is written 0.3000), and none of them carries a percent sign. *)
Lemma image_mode_rows_not_percentages :
  (exists rest,
     ui (image_mode demo_env demo_models demo_image_request world0).2
     = [ StImage "Uploaded Image";
         StSuccess "🔍 Top Relevant Concepts:";
         StWrite "- **Education** — Probability: 0.3000";
         StWrite "- **Robotics** — Probability: 0.3000";
         StWrite "- **Healthcare** — Probability: 0.1000" ] ++ rest)
  /\ shown_as_percentage "- **Education** — Probability: 0.3000" = false
  /\ shown_as_percentage "- **Robotics** — Probability: 0.3000" = false
  /\ shown_as_percentage "- **Healthcare** — Probability: 0.1000" = false.
Proof.
  split; [eexists; vm_compute; reflexivity|]. repeat split.
Qed.

(** C5, amended (Image mode): after a successful rank the interface
    writes, below the uploaded image and the heading, one row for each of
    the three ranked pairs, in rank order; a row is the capitalized label
    followed by "Probability:" and the probability as a decimal fraction
    with four digits after the point, the nearest such decimal to the
    probability (not a percentage). *)
Theorem image_mode_renders_rows (env : Env) (ms : Models) (rq : Request)
    (up : Upload) (image : Image) (inputs : ClipInputs) (probs : list Q) (w : World) :
  uploaded_image rq = Some up ->
  Image_open env up = Ok image ->
  button rq = true ->
  clip_processor ms concepts image = Ok inputs ->
  clip_model ms inputs = Ok probs ->
  length probs = length concepts ->
  exists ranked rest w',
    ranked = take 3 (sorted_desc snd (zip concepts probs))
    /\ length ranked = 3
    /\ image_mode env ms rq w = (Return tt, w')
    /\ ui w' = ui w
                ++ [StImage "Uploaded Image"; StSuccess "🔍 Top Relevant Concepts:"]
                ++ map (fun cs => StWrite ("- **" +:+ capitalize cs.1
                                            +:+ "** — Probability: " +:+ format_4f cs.2))
                       ranked
                ++ rest
    /\ (forall cs, cs ∈ ranked ->
          let shown := (inject_Z (round_half_even (cs.2 * 10000)) / 10000)%Q in
          (shown - (1 # 20000) <= cs.2 /\ cs.2 <= shown + (1 # 20000))%Q).
Proof.
  intros Hup Hopen Hbtn Hproc Hmodel Hlen.
  set (ranked := take 3 (sorted_desc snd (zip concepts probs))).
  pose proof (top3_length probs Hlen) as Hl3. fold ranked in Hl3.
  unfold image_mode. rewrite Hup, Hopen, Hbtn. unfold bind at 1. simpl call.
  unfold ret at 1. unfold bind at 1. rewrite emit_run. unfold when.
  unfold bind at 1.
  rewrite (analyze_image_ranked ms image inputs probs _ Hproc Hmodel
             (length_concepts_not_1 _ Hlen)). fold ranked.
  destruct ranked as [|[top_concept p0] tl] eqn:Hranked; [discriminate Hl3|].
  unfold bind at 1. rewrite emit_run. unfold bind at 1. rewrite for_each_write.
  cbn [ui stdout rng gen_calls].
  match goal with
  | |- context [bind (generate_innovation ?m ?p ?c) ?k ?w0] =>
      destruct (generate_innovation_extends m p c w0) as (o & w2 & evs & Hgen & Hui);
      unfold bind at 1; rewrite Hgen
  end.
  cbn [ui] in Hui.
  assert (Hnear : forall cs, cs ∈ (top_concept, p0) :: tl ->
            let shown := (inject_Z (round_half_even (cs.2 * 10000)) / 10000)%Q in
            (shown - (1 # 20000) <= cs.2 /\ cs.2 <= shown + (1 # 20000))%Q).
  { intros cs _ shown. subst shown.
    destruct (round_half_even_near (cs.2 * 10000)) as [Hlo Hhi].
    set (k := inject_Z (round_half_even (cs.2 * 10000))) in *.
    split.
    - apply (Qmult_le_r _ _ 10000); [reflexivity|].
      eapply Qle_trans; [|exact Hlo]. apply Qle_lteq. right. field.
    - apply (Qmult_le_r _ _ 10000); [reflexivity|].
      eapply Qle_trans; [exact Hhi|]. apply Qle_lteq. right. field. }
  destruct (truthy_opt o).
  - eexists _, _, _. split; [reflexivity|]. split; [exact Hl3|].
    split; [unfold bind; rewrite !emit_run; reflexivity|].
    split; [|exact Hnear].
    cbn [ui]. rewrite Hui. unfold concept_row. rewrite <- !app_assoc. simpl.
    reflexivity.
  - eexists _, _, _. split; [reflexivity|]. split; [exact Hl3|].
    split; [reflexivity|]. split; [|exact Hnear].
    rewrite Hui. unfold concept_row. rewrite <- !app_assoc. simpl.
    reflexivity.
Qed.

(** C5 as amended, on the sample image: the three rows as written. *)
Lemma image_mode_renders_rows_witness :
  uploaded_image demo_image_request = Some demo_upload
  /\ Image_open demo_env demo_upload = Ok demo_image
  /\ button demo_image_request = true
  /\ clip_processor demo_models concepts demo_image
     = Ok (mkClipInputs (map (fun t => [N.of_nat (String.length t)]) concepts) [])
  /\ clip_model demo_models
       (mkClipInputs (map (fun t => [N.of_nat (String.length t)]) concepts) [])
     = Ok demo_probs
  /\ length demo_probs = length concepts
  /\ exists rest w',
       image_mode demo_env demo_models demo_image_request world0 = (Return tt, w')
       /\ ui w' = [ StImage "Uploaded Image";
                    StSuccess "🔍 Top Relevant Concepts:";
                    StWrite "- **Education** — Probability: 0.3000";
                    StWrite "- **Robotics** — Probability: 0.3000";
                    StWrite "- **Healthcare** — Probability: 0.1000" ] ++ rest.
Proof.
  repeat (split; [reflexivity|]).
  destruct (image_mode_renders_rows demo_env demo_models demo_image_request
              demo_upload demo_image _ demo_probs world0
              eq_refl eq_refl eq_refl eq_refl eq_refl eq_refl)
    as (ranked & rest & w' & Hranked & _ & Hrun & Hui & _).
  exists rest, w'. split; [exact Hrun|].
  rewrite Hui, Hranked. reflexivity.
Defined.

(** * The script as a whole *)

(** ** Composition of pieces that return *)

Lemma rendered_nil (w : World) : rendered [] w = w.
Proof. destruct w. unfold rendered. simpl. now rewrite app_nil_r. Qed.

Lemma rendered_rendered (a b : list UiEvent) (w : World) :
  rendered b (rendered a w) = rendered (a ++ b) w.
Proof. unfold rendered. simpl. now rewrite app_assoc. Qed.

Lemma emit_rendered (ev : UiEvent) (w : World) : emit ev w = (Return tt, rendered [ev] w).
Proof. reflexivity. Qed.

Lemma returns_ret {A} (a : A) : returns (ret a).
Proof. intros w. exists a, w, []. split; [reflexivity | now rewrite app_nil_r]. Qed.

Lemma returns_emit (ev : UiEvent) : returns (emit ev).
Proof. intros w. exists tt, (rendered [ev] w), [ev]. split; reflexivity. Qed.

Lemma returns_bind {A B} (c : M A) (k : A -> M B) :
  returns c -> (forall a, returns (k a)) -> returns (bind c k).
Proof.
  intros Hc Hk w. destruct (Hc w) as (a & w1 & evs1 & Hrun1 & Hui1).
  destruct (Hk a w1) as (b & w2 & evs2 & Hrun2 & Hui2).
  exists b, w2, (evs1 ++ evs2). unfold bind. rewrite Hrun1, Hrun2.
  split; [reflexivity|]. now rewrite Hui2, Hui1, app_assoc.
Qed.

Lemma returns_when (b : bool) (c : M unit) : returns c -> returns (when b c).
Proof. intros Hc. destruct b; [exact Hc | apply returns_ret]. Qed.

Lemma returns_for_each {A} (xs : list A) (body : A -> M unit) :
  (forall x, returns (body x)) -> returns (for_each xs body).
Proof.
  intros Hbody. induction xs as [|x xs IH]; simpl; [apply returns_ret|].
  apply returns_bind; [apply Hbody | intros _; exact IH].
Qed.

Lemma returns_generate_innovation (ms : Models) (prompt context : string) :
  returns (generate_innovation ms prompt context).
Proof. intros w. apply generate_innovation_extends. Qed.

Lemma returns_analyze_image (ms : Models) (image : Image) :
  returns (analyze_image ms image).
Proof.
  intros w. rewrite analyze_image_run.
  destruct (clip_processor ms concepts image) as [inputs|e];
    [|eexists _, _, [_]; split; reflexivity].
  destruct (clip_model ms inputs) as [row|e];
    [|eexists _, _, [_]; split; reflexivity].
  destruct (squeeze_tolist row);
    [eexists _, _, [_]; split; reflexivity
    |eexists _, _, []; split; [reflexivity | now rewrite app_nil_r]].
Qed.

Lemma returns_analyze_data (env : Env) (df : DataFrame) : returns (analyze_data env df).
Proof.
  intros w. rewrite analyze_data_run.
  destruct (describe env df);
    [eexists _, _, []; split; [reflexivity | now rewrite app_nil_r]
    |eexists _, _, [_]; split; reflexivity].
Qed.

Lemma returns_text_mode (ms : Models) (rq : Request) : returns (text_mode ms rq).
Proof.
  unfold text_mode. apply returns_when.
  destruct (truthy_str (strip (user_input rq))); [|apply returns_emit].
  apply returns_bind; [apply returns_generate_innovation|].
  intros o. apply returns_when.
  apply returns_bind; [apply returns_emit | intros _; apply returns_emit].
Qed.

Lemma returns_image_body (ms : Models) (rq : Request) (image : Image) :
  returns (emit (StImage "Uploaded Image") ;;;
           when (button rq)
             (ranked <- analyze_image ms image ;;
              match ranked with
              | Some (((top_concept, _) :: _) as scores) =>
                  emit (StSuccess "🔍 Top Relevant Concepts:") ;;;
                  for_each scores (fun cs => emit (StWrite (concept_row cs))) ;;;
                  output <- generate_innovation ms (top_concept +:+ " innovation") (context rq) ;;
                  when (truthy_opt output)
                    (emit (StMarkdown "✨ **Generated Idea:**") ;;;
                     emit (StWrite (default "" output)))
              | _ => ret tt
              end)).
Proof.
  apply returns_bind; [apply returns_emit|]. intros _. apply returns_when.
  apply returns_bind; [apply returns_analyze_image|].
  intros [[|[top_concept p] tl]|]; try apply returns_ret.
  apply returns_bind; [apply returns_emit|]. intros _.
  apply returns_bind; [apply returns_for_each; intros cs; apply returns_emit|]. intros _.
  apply returns_bind; [apply returns_generate_innovation|]. intros o.
  apply returns_when.
  apply returns_bind; [apply returns_emit | intros _; apply returns_emit].
Qed.

Lemma returns_csv_body (env : Env) (rq : Request) (df : DataFrame) :
  returns (emit (StDataframe df) ;;;
           when (button rq)
             (r <- analyze_data env df ;;
              let '(summary, insights, stats, use_case) := r in
              when (truthy_opt summary && truthy_opt insights
                    && truthy_dict stats && truthy_opt use_case)
                (emit (StSuccess "📊 Data Insights:") ;;;
                 emit (StWrite (default "" summary)) ;;;
                 emit (StWrite (default "" insights)) ;;;
                 emit (StJson (default ∅ stats)) ;;;
                 emit (StMarkdown "💡 **Use Case:**") ;;;
                 emit (StWrite (default "" use_case))))).
Proof.
  apply returns_bind; [apply returns_emit|]. intros _. apply returns_when.
  apply returns_bind; [apply returns_analyze_data|].
  intros [[[summary insights] stats] use_case]. apply returns_when.
  repeat (apply returns_bind; [apply returns_emit | intros _]).
  apply returns_emit.
Qed.

(** With the models loaded, a run of the script is the header, the chosen
    branch and the footer. *)
Lemma script_loaded (env : Env) (ms : Models) (rq : Request) (w : World) :
  models_loaded env ms ->
  script env rq w
  = (dispatch env ms rq ;;;
     emit (StWrite "---") ;;;
     emit (StCaption "Powered by Hugging Face Transformers, CLIP, and Streamlit. Built for meaningful innovations!"))
      (rendered header (logged load_log w)).
Proof.
  intros (Htg & Hm & Hp). destruct ms as [tg m p]. simpl in Htg, Hm, Hp.
  unfold script, load_models, try_except, bind at 1 2, call.
  rewrite Htg, Hm, Hp. simpl.
  unfold bind at 1. rewrite emit_run. unfold bind at 1. rewrite emit_run.
  unfold rendered, logged, header, load_log, dispatch. simpl.
  rewrite <- !app_assoc. reflexivity.
Qed.

Lemma truthy_str_true (s : string) : s <> "" -> truthy_str s = true.
Proof. destruct s; [congruence | reflexivity]. Qed.

(** [load_models] returns handles exactly when the three acquisitions
    return them; it has then printed its six log lines and rendered
    nothing. *)
Theorem load_models_returns_iff (env : Env) (ms : Models) (w w' : World) :
  load_models env w = (Return ms, w')
  <-> models_loaded env ms /\ w' = logged load_log w.
Proof.
  unfold models_loaded, load_models, try_except, bind, call. split.
  - destruct (pipeline env _ _ _) as [tg|e]; simpl; [|discriminate].
    destruct (CLIPModel_from_pretrained env clip_name) as [m|e]; simpl; [|discriminate].
    destruct (CLIPProcessor_from_pretrained env clip_name) as [p|e]; simpl; [|discriminate].
    intros H. injection H as <- <-. repeat split.
    unfold logged, load_log. simpl. now rewrite <- !app_assoc.
  - intros ((Htg & Hm & Hp) & ->). destruct ms as [tg m p]. simpl in *.
    rewrite Htg, Hm, Hp. simpl. unfold logged, load_log. simpl.
    now rewrite <- !app_assoc.
Qed.

(** ** Text mode *)

(** Text mode with the button pressed and a blank problem statement: the
    script renders the warning between header and footer, and the
    text-generation pipeline is not called. *)
Theorem script_blank_text_input (env : Env) (ms : Models) (rq : Request) (w : World) :
  models_loaded env ms ->
  input_type rq = TextMode ->
  button rq = true ->
  strip (user_input rq) = "" ->
  script env rq w
  = (Return tt,
     rendered (header ++ [StWarning "Please enter a valid problem statement or idea."]
                 ++ footer)
       (logged load_log w)).
Proof.
  intros Hms Hmode Hbtn Hblank. rewrite (script_loaded env ms rq w Hms).
  unfold dispatch, text_mode. rewrite Hmode, Hbtn, Hblank.
  unfold when, bind, emit, rendered, logged, header, footer. simpl.
  rewrite <- !app_assoc. reflexivity.
Qed.

Lemma script_blank_text_input_witness :
  models_loaded demo_env demo_models
  /\ strip "  " = ""
  /\ (script demo_env (mkRequest TextMode "General" "  " true None None) world0).1 = Return tt
  /\ gen_calls (script demo_env (mkRequest TextMode "General" "  " true None None) world0).2 = [].
Proof.
  assert (Hms : models_loaded demo_env demo_models) by (repeat split).
  split; [exact Hms|]. split; [reflexivity|].
  rewrite (script_blank_text_input demo_env demo_models
             (mkRequest TextMode "General" "  " true None None) world0
             Hms eq_refl eq_refl eq_refl).
  split; reflexivity.
Defined.

(** Text mode with a problem statement that is not blank: the pipeline is
    called once, with the prompt built from the statement exactly as typed
    (not stripped) and the chosen context; when the stripped text of the
    first sequence is not empty, the heading and that text are rendered. *)
Theorem text_mode_renders_idea (ms : Models) (rq : Request) (w : World)
    (outputs : list (gmap string string)) (first : gmap string string)
    (text : string) (g : N) :
  button rq = true ->
  strip (user_input rq) <> "" ->
  text_generator ms (innovation_call (user_input rq) (context rq)) (rng w) = (Ok outputs, g) ->
  outputs !! 0 = Some first ->
  first !! "generated_text" = Some text ->
  strip text <> "" ->
  text_mode ms rq w
  = (Return tt,
     rendered [StSuccess "🎯 Innovative Solution:"; StWrite (strip text)]
       (called (innovation_call (user_input rq) (context rq)) g w)).
Proof.
  intros Hbtn Hin Hcall Hfirst Htext Hout.
  unfold text_mode. rewrite Hbtn, (truthy_str_true _ Hin). unfold when at 1.
  unfold bind at 1. rewrite generate_innovation_run. cbv zeta.
  rewrite Hcall. cbn [fst snd]. rewrite Hfirst, Htext.
  cbn [truthy_opt]. rewrite (truthy_str_true _ Hout).
  unfold when, bind, emit, rendered. simpl. rewrite <- !app_assoc. reflexivity.
Qed.

Lemma text_mode_renders_idea_witness :
  let rq := mkRequest TextMode "Sustainability" " Reduce plastic waste in oceans"
              true None None in
  let text := structured_prompt " Reduce plastic waste in oceans" "Sustainability"
              +:+ " Collect it with floating nets. " in
  strip (user_input rq) <> ""
  /\ strip text <> ""
  /\ text_mode demo_models rq world0
     = (Return tt,
        rendered [StSuccess "🎯 Innovative Solution:"; StWrite (strip text)]
          (called (innovation_call " Reduce plastic waste in oceans" "Sustainability")
             (next_rng 0) world0)).
Proof.
  intros rq text.
  assert (Hin : strip (user_input rq) <> "") by (vm_compute; discriminate).
  assert (Hout : strip text <> "") by (apply (strip_nonempty "C"); reflexivity).
  split; [exact Hin|]. split; [exact Hout|].
  apply (text_mode_renders_idea demo_models rq world0
           [ {[ "generated_text" := text ]} ] {[ "generated_text" := text ]} text
           (next_rng 0) eq_refl Hin eq_refl eq_refl).
  - apply lookup_singleton_eq.
  - exact Hout.
Defined.

(** Text mode when the pipeline answers a text that strips to nothing: the
    empty result is treated like a failure by [if output:], but no error
    was reported, so the branch renders nothing at all. *)
Theorem text_mode_silent_on_blank_output (ms : Models) (rq : Request) (w : World)
    (outputs : list (gmap string string)) (first : gmap string string)
    (text : string) (g : N) :
  button rq = true ->
  strip (user_input rq) <> "" ->
  text_generator ms (innovation_call (user_input rq) (context rq)) (rng w) = (Ok outputs, g) ->
  outputs !! 0 = Some first ->
  first !! "generated_text" = Some text ->
  strip text = "" ->
  text_mode ms rq w
  = (Return tt, called (innovation_call (user_input rq) (context rq)) g w)
  /\ ui (text_mode ms rq w).2 = ui w.
Proof.
  intros Hbtn Hin Hcall Hfirst Htext Hout.
  assert (Hrun : text_mode ms rq w
                 = (Return tt, called (innovation_call (user_input rq) (context rq)) g w)).
  { unfold text_mode. rewrite Hbtn, (truthy_str_true _ Hin). unfold when at 1.
    unfold bind at 1. rewrite generate_innovation_run. cbv zeta.
    rewrite Hcall. cbn [fst snd]. rewrite Hfirst, Htext.
    cbn [truthy_opt]. rewrite Hout. reflexivity. }
  split; [exact Hrun | now rewrite Hrun].
Qed.

Lemma text_mode_silent_on_blank_output_witness :
  let blank : TextGenerator := fun _ g => (Ok [ {[ "generated_text" := "  " ]} ], g) in
  let rq := mkRequest TextMode "General" "Reduce plastic waste" true None None in
  ui (text_mode (mkModels blank demo_clip demo_processor) rq world0).2 = [].
Proof.
  intros blank rq.
  destruct (text_mode_silent_on_blank_output (mkModels blank demo_clip demo_processor)
              rq world0 [ {[ "generated_text" := "  " ]} ] {[ "generated_text" := "  " ]}
              "  " 0) as [_ Hui].
  - reflexivity.
  - vm_compute. discriminate.
  - reflexivity.
  - reflexivity.
  - apply lookup_singleton_eq.
  - reflexivity.
  - exact Hui.
Defined.

(** ** Malformed answers of the pipeline *)

(** The text of an error rendered for [e] starts with the prefix and the
    first line of the traceback, and ends with the line of the exception:
    its class, followed by its message when it has one. *)
Lemma error_text (prefix : string) (e : PyExn) :
  starts_with (prefix +:+ format_exc e)
    (prefix +:+ "Traceback (most recent call last):" +:+ nl)
  /\ ends_with (prefix +:+ format_exc e) (format_exception_only e +:+ nl).
Proof.
  unfold format_exc, nl. split.
  - exists (exn_frames e +:+ format_exception_only e +:+ String "010" "").
    now rewrite !append_assoc.
  - exists (prefix +:+ "Traceback (most recent call last):" +:+ String "010" (exn_frames e)).
    now rewrite !append_assoc.
Qed.

(** When the pipeline returns no sequence, or a first sequence without the
    key [generated_text], the indexing raises inside the [try]:
    [generate_innovation] returns [None] and renders, after the call, one
    error whose text ends with the line of the [IndexError], or of the
    [KeyError]. *)
Theorem generate_innovation_malformed_output (ms : Models) (prompt ctx : string)
    (w : World) (outputs : list (gmap string string)) (g : N) :
  text_generator ms (innovation_call prompt ctx) (rng w) = (Ok outputs, g) ->
  outputs = []
  \/ (exists first rest, outputs = first :: rest /\ first !! "generated_text" = None) ->
  exists msg,
    generate_innovation ms prompt ctx w
    = (Return None, rendered [StError msg] (called (innovation_call prompt ctx) g w))
    /\ starts_with msg
         ("Error generating innovation idea: Traceback (most recent call last):" +:+ nl)
    /\ (outputs = [] -> ends_with msg ("IndexError: list index out of range" +:+ nl))
    /\ (outputs <> [] -> ends_with msg ("KeyError: 'generated_text'" +:+ nl)).
Proof.
  intros Hcall [-> | (first & rest & -> & Hkey)].
  - exists ("Error generating innovation idea: "
            +:+ format_exc (mkExn "IndexError" "list index out of range" "")).
    split; [rewrite generate_innovation_run; cbv zeta; now rewrite Hcall|].
    split; [apply (error_text "Error generating innovation idea: ")|].
    split; [intros _; apply (error_text "Error generating innovation idea: ") | congruence].
  - exists ("Error generating innovation idea: "
            +:+ format_exc (mkExn "KeyError" "'generated_text'" "")).
    split.
    { rewrite generate_innovation_run. cbv zeta. rewrite Hcall. cbn [fst snd].
      change ((first :: rest) !! 0) with (Some first). cbv beta iota. now rewrite Hkey. }
    split; [apply (error_text "Error generating innovation idea: ")|].
    split; [discriminate | intros _; apply (error_text "Error generating innovation idea: ")].
Qed.

Lemma generate_innovation_malformed_output_witness :
  let none : TextGenerator := fun _ g => (Ok [], g) in
  exists msg,
    generate_innovation (mkModels none demo_clip demo_processor) "p" "general" world0
    = (Return None, rendered [StError msg] (called (innovation_call "p" "general") 0 world0))
    /\ ends_with msg ("IndexError: list index out of range" +:+ nl).
Proof.
  intros none.
  destruct (generate_innovation_malformed_output (mkModels none demo_clip demo_processor)
              "p" "general" world0 [] 0%N eq_refl (or_introl eq_refl))
    as (msg & Hrun & _ & Hidx & _).
  exists msg. split; [exact Hrun | exact (Hidx eq_refl)].
Defined.

(** ** The ranker at its edges *)

(** The ranker on a row that has not one probability per label.  A row
    other than a single probability gives as many pairs as it has
    probabilities, up to three (the pairing stops at the shorter list), and
    none when it is empty.  A row of a single probability is squeezed to a
    bare float, which [zip] refuses: [analyze_image] returns [None] and
    renders the [TypeError]. *)
Theorem analyze_image_length (ms : Models) (image : Image) (inputs : ClipInputs)
    (row : list Q) (w : World) :
  clip_processor ms concepts image = Ok inputs ->
  clip_model ms inputs = Ok row ->
  (length row <> 1 ->
   exists ranked,
     analyze_image ms image w = (Return (Some ranked), w)
     /\ length ranked = Nat.min 3 (length row)
     /\ (row = [] -> ranked = []))
  /\ (length row = 1 ->
      exists msg,
        analyze_image ms image w = (Return None, rendered [StError msg] w)
        /\ ends_with msg ("TypeError: 'float' object is not iterable" +:+ nl)).
Proof.
  intros Hproc Hmodel. split.
  - intros Hlen. eexists. split; [|split].
    + apply (analyze_image_ranked ms image inputs row w Hproc Hmodel Hlen).
    + rewrite length_take, sorted_desc_perm, length_zip.
      change (length concepts) with 10. lia.
    + intros ->. reflexivity.
  - intros Hlen. destruct row as [|p [|q row]]; try discriminate Hlen.
    exists ("Error analyzing image: "
            +:+ format_exc (mkExn "TypeError" "'float' object is not iterable" "")).
    split; [rewrite analyze_image_run, Hproc, Hmodel; reflexivity|].
    apply (error_text "Error analyzing image: ").
Qed.

Lemma analyze_image_length_witness :
  let two : ClipModel := fun _ => Ok [1 # 4; 3 # 4] in
  let one : ClipModel := fun _ => Ok [1 # 1] in
  analyze_image (mkModels demo_generator two demo_processor) demo_image world0
  = (Return (Some [("education", 3 # 4); ("healthcare", 1 # 4)]), world0)
  /\ (exists ranked,
       analyze_image (mkModels demo_generator two demo_processor) demo_image world0
       = (Return (Some ranked), world0)
       /\ length ranked = 2)
  /\ (analyze_image (mkModels demo_generator one demo_processor) demo_image world0).1
     = Return None.
Proof.
  intros two one. split; [reflexivity|].
  destruct (analyze_image_length (mkModels demo_generator two demo_processor)
              demo_image _ [1 # 4; 3 # 4] world0 eq_refl eq_refl) as [Hlist _].
  destruct (analyze_image_length (mkModels demo_generator one demo_processor)
              demo_image _ [1 # 1] world0 eq_refl eq_refl) as [_ Hfloat].
  destruct Hlist as (ranked & Hrun & Hlen & _); [discriminate|].
  destruct (Hfloat eq_refl) as (msg & Hrun1 & _).
  split; [exists ranked; split; [exact Hrun | exact Hlen]|].
  now rewrite Hrun1.
Defined.

(** When the processor or the model raises, [analyze_image] returns [None]
    and renders exactly one error; its text starts with "Error analyzing
    image: " and the first line of the traceback, and ends with the line of
    the exception: the class alone when the exception has no message, the
    class, a colon and the message otherwise.  Nothing else changes. *)
Theorem analyze_image_failure (ms : Models) (image : Image) (e : PyExn) (w : World) :
  clip_processor ms concepts image = Raise e
  \/ (exists inputs, clip_processor ms concepts image = Ok inputs
                     /\ clip_model ms inputs = Raise e) ->
  exists msg,
    analyze_image ms image w = (Return None, rendered [StError msg] w)
    /\ starts_with msg ("Error analyzing image: Traceback (most recent call last):" +:+ nl)
    /\ (exn_msg e = "" -> ends_with msg (exn_type e +:+ nl))
    /\ (exn_msg e <> "" -> ends_with msg (exn_type e +:+ ": " +:+ exn_msg e +:+ nl)).
Proof.
  intros H. exists ("Error analyzing image: " +:+ format_exc e).
  destruct (error_text "Error analyzing image: " e) as [Hstart Hend].
  split; [|split; [exact Hstart|split]].
  - rewrite analyze_image_run.
    destruct H as [-> | (inputs & -> & ->)]; reflexivity.
  - intros Hmsg. unfold format_exception_only in Hend. now rewrite Hmsg in Hend.
  - intros Hmsg. unfold format_exception_only in Hend.
    destruct (exn_msg e) as [|c m]; [congruence|].
    now rewrite append_assoc in Hend.
Qed.

Lemma analyze_image_failure_witness :
  let broken : ClipProcessor :=
    fun _ _ => Raise (mkExn "ValueError" "Unable to create tensor" "") in
  exists msg,
    analyze_image (mkModels demo_generator demo_clip broken) demo_image world0
    = (Return None, rendered [StError msg] world0)
    /\ ends_with msg ("ValueError: Unable to create tensor" +:+ nl).
Proof.
  intros broken.
  destruct (analyze_image_failure (mkModels demo_generator demo_clip broken) demo_image
              (mkExn "ValueError" "Unable to create tensor" "") world0)
    as (msg & Hrun & _ & _ & Hend); [left; reflexivity|].
  exists msg. split; [exact Hrun|]. apply Hend. discriminate.
Defined.

(** ** Image mode *)

Lemma generate_innovation_records (ms : Models) (prompt context : string) (w : World) :
  exists o w', generate_innovation ms prompt context w = (Return o, w')
               /\ gen_calls w' = gen_calls w ++ [innovation_call prompt context].
Proof.
  rewrite generate_innovation_run. cbv zeta.
  destruct (text_generator ms _ (rng w)).1 as [outputs|e]; [|eauto].
  destruct (outputs !! 0) as [first|]; [|eauto].
  destruct (first !! "generated_text"); eauto.
Qed.

(** The first element of the sort has the greatest key. *)
Lemma sorted_desc_head_max {A} (key : A -> Q) (l : list A) x tl :
  sorted_desc key l = x :: tl -> forall y, y ∈ l -> (key y <= key x)%Q.
Proof.
  intros Hs y Hy. rewrite <- (sorted_desc_perm key l) in Hy.
  apply list_elem_of_lookup in Hy as [j Hj].
  destruct j as [|j].
  - rewrite Hs in Hj. injection Hj as ->. apply Qle_refl.
  - apply (before_ge key l).
    apply (StronglySorted_lookup _ (sorted_desc key l) 0 (S j));
      [apply sorted_desc_stable | lia | now rewrite Hs | exact Hj].
Qed.

(** The run of Image mode once the image is decoded, the button pressed
    and the rank has returned pairs. *)
Lemma image_mode_ranked (env : Env) (ms : Models) (rq : Request) (up : Upload)
    (image : Image) (inputs : ClipInputs) (probs : list Q) (w : World) top p0 tl :
  uploaded_image rq = Some up ->
  Image_open env up = Ok image ->
  button rq = true ->
  clip_processor ms concepts image = Ok inputs ->
  clip_model ms inputs = Ok probs ->
  length probs <> 1 ->
  take 3 (sorted_desc snd (zip concepts probs)) = (top, p0) :: tl ->
  image_mode env ms rq w
  = (output <- generate_innovation ms (top +:+ " innovation") (context rq) ;;
     when (truthy_opt output)
       (emit (StMarkdown "✨ **Generated Idea:**") ;;;
        emit (StWrite (default "" output))))
      (rendered ([StImage "Uploaded Image"; StSuccess "🔍 Top Relevant Concepts:"]
                   ++ map (fun cs => StWrite (concept_row cs)) ((top, p0) :: tl)) w).
Proof.
  intros Hup Hopen Hbtn Hproc Hmodel Hlen Hranked.
  unfold image_mode. rewrite Hup, Hopen, Hbtn. unfold bind at 1. simpl call.
  unfold ret at 1. unfold bind at 1. rewrite emit_run. unfold when at 1.
  unfold bind at 1.
  rewrite (analyze_image_ranked ms image inputs probs _ Hproc Hmodel Hlen), Hranked.
  unfold bind at 1. rewrite emit_run. unfold bind at 1. rewrite for_each_write.
  unfold rendered. cbn [ui stdout rng gen_calls]. rewrite <- !app_assoc.
  reflexivity.
Qed.

(** Image mode, after a successful rank: the text-generation pipeline is
    called exactly once, for the problem "<label> innovation" where the
    label is the first of the ranking, as it stands in the vocabulary, and
    for the chosen context; no label has a greater probability than that
    one. *)
Theorem image_mode_generates_from_top (env : Env) (ms : Models) (rq : Request)
    (up : Upload) (image : Image) (inputs : ClipInputs) (probs : list Q) (w : World) :
  uploaded_image rq = Some up ->
  Image_open env up = Ok image ->
  button rq = true ->
  clip_processor ms concepts image = Ok inputs ->
  clip_model ms inputs = Ok probs ->
  length probs = length concepts ->
  exists top p0,
    take 3 (sorted_desc snd (zip concepts probs)) !! 0 = Some (top, p0)
    /\ top ∈ concepts
    /\ (forall a c p, concepts !! a = Some c -> probs !! a = Some p -> (p <= p0)%Q)
    /\ gen_calls (image_mode env ms rq w).2
       = gen_calls w ++ [innovation_call (top +:+ " innovation") (context rq)].
Proof.
  intros Hup Hopen Hbtn Hproc Hmodel Hlen.
  pose proof (top3_length probs Hlen) as Hl3.
  destruct (sorted_desc snd (zip concepts probs)) as [|[top p0] rest] eqn:Hsorted;
    [discriminate Hl3|].
  exists top, p0. split; [reflexivity|].
  assert (Hin : (top, p0) ∈ zip concepts probs).
  { rewrite <- (sorted_desc_perm snd), Hsorted. left. }
  split; [|split].
  - apply list_elem_of_lookup in Hin as [a Ha].
    apply zip_lookup_Some in Ha as [Ha _]. eapply list_elem_of_lookup_2, Ha.
  - intros a c p Hc Hp.
    apply (sorted_desc_head_max snd _ _ _ Hsorted (c, p)).
    eapply list_elem_of_lookup_2. apply lookup_zip_with_Some. eauto.
  - assert (Htake : take 3 (sorted_desc snd (zip concepts probs)) = (top, p0) :: take 2 rest)
      by now rewrite Hsorted.
    rewrite (image_mode_ranked env ms rq up image inputs probs w top p0 (take 2 rest)
               Hup Hopen Hbtn Hproc Hmodel (length_concepts_not_1 _ Hlen) Htake).
    match goal with
    | |- context [bind (generate_innovation ?m ?p ?c) ?k ?w0] =>
        destruct (generate_innovation_records m p c w0) as (o & w2 & Hgen & Hcalls);
        unfold bind at 1; rewrite Hgen
    end.
    destruct (truthy_opt o); exact Hcalls.
Qed.

Lemma image_mode_generates_from_top_witness :
  gen_calls (image_mode demo_env demo_models demo_image_request world0).2
  = [innovation_call "education innovation" "Sustainability"].
Proof.
  destruct (image_mode_generates_from_top demo_env demo_models demo_image_request
              demo_upload demo_image _ demo_probs world0
              eq_refl eq_refl eq_refl eq_refl eq_refl eq_refl)
    as (top & p0 & Htop & _ & _ & Hcalls).
  rewrite Hcalls. vm_compute in Htop. injection Htop as <- _. reflexivity.
Defined.

(** Image mode when the rank fails: below the uploaded image only the error
    is rendered; the pipeline is not called and the branch ends normally. *)
Theorem image_mode_rank_failure (env : Env) (ms : Models) (rq : Request)
    (up : Upload) (image : Image) (e : PyExn) (w : World) :
  uploaded_image rq = Some up ->
  Image_open env up = Ok image ->
  button rq = true ->
  clip_processor ms concepts image = Raise e
  \/ (exists inputs, clip_processor ms concepts image = Ok inputs
                     /\ clip_model ms inputs = Raise e) ->
  image_mode env ms rq w
  = (Return tt,
     rendered [StImage "Uploaded Image";
               StError ("Error analyzing image: " +:+ format_exc e)] w).
Proof.
  intros Hup Hopen Hbtn Hfail.
  unfold image_mode. rewrite Hup, Hopen, Hbtn. unfold bind at 1. simpl call.
  unfold ret at 1. unfold bind at 1. rewrite emit_run. unfold when at 1.
  unfold bind at 1. rewrite analyze_image_run.
  destruct Hfail as [-> | (inputs & -> & ->)];
    unfold report, rendered, ret; cbn [ui stdout rng gen_calls];
    rewrite <- !app_assoc; reflexivity.
Qed.

Lemma image_mode_rank_failure_witness :
  let broken : ClipModel := fun _ => Raise (mkExn "RuntimeError" "out of memory" "") in
  (image_mode demo_env (mkModels demo_generator broken demo_processor)
     demo_image_request world0).1 = Return tt
  /\ gen_calls (image_mode demo_env (mkModels demo_generator broken demo_processor)
                  demo_image_request world0).2 = [].
Proof.
  intros broken.
  rewrite (image_mode_rank_failure demo_env (mkModels demo_generator broken demo_processor)
             demo_image_request demo_upload demo_image
             (mkExn "RuntimeError" "out of memory" "") world0 eq_refl eq_refl eq_refl).
  - split; reflexivity.
  - right. eexists. split; reflexivity.
Defined.

(** ** CSV mode *)

Lemma describe_nonempty (env : Env) (df : DataFrame) :
  df_columns df <> [] ->
  exists d ds, describe env df = Ok (d :: ds).
Proof.
  intros Hcols. unfold describe.
  destruct (df_columns df) as [|c0 cols]; [congruence|].
  destruct (filter _ (c0 :: cols)) as [|n nums]; simpl; eauto.
Qed.

Lemma to_dict_nonempty (d : string * Stats) (ds : list (string * Stats)) :
  to_dict (d :: ds) <> ∅.
Proof.
  intros Hempty.
  assert (H : is_Some (to_dict (d :: ds) !! d.1)).
  { apply to_dict_is_Some. left. }
  rewrite Hempty, lookup_empty in H. destruct H as [? H]. discriminate H.
Qed.

(** CSV mode on a table with at least one column, the button pressed: the
    table, the heading, the summary, the column list, the statistics (a
    mapping that is not empty), the second heading and the advisory
    sentence are rendered, in this order, and nothing else. *)
Theorem csv_mode_renders_insights (env : Env) (rq : Request) (up : Upload)
    (df : DataFrame) (w : World) :
  uploaded_csv rq = Some up ->
  read_csv env up = Ok df ->
  button rq = true ->
  df_columns df <> [] ->
  exists described,
    describe env df = Ok described
    /\ to_dict described <> ∅
    /\ csv_mode env rq w
       = (Return tt,
          rendered [ StDataframe df;
                     StSuccess "📊 Data Insights:";
                     StWrite (summary_text (df_nrows df) (length (df_columns df)));
                     StWrite ("Key columns: " +:+ join ", " (columns df));
                     StJson (to_dict described);
                     StMarkdown "💡 **Use Case:**";
                     StWrite advisory ] w).
Proof.
  intros Hup Hread Hbtn Hcols.
  destruct (describe_nonempty env df Hcols) as (d & ds & Hd).
  exists (d :: ds). split; [exact Hd|]. split; [apply to_dict_nonempty|].
  unfold csv_mode. rewrite Hup, Hread, Hbtn. unfold bind at 1. simpl call.
  unfold ret at 1. unfold bind at 1. rewrite emit_run. unfold when at 1.
  unfold bind at 1. rewrite analyze_data_run, Hd.
  cbn [truthy_dict]. rewrite (bool_decide_eq_false_2 _ (to_dict_nonempty d ds)).
  unfold when, bind, emit, rendered, ret. simpl. rewrite <- !app_assoc. reflexivity.
Qed.

Lemma csv_mode_renders_insights_witness :
  exists stats,
    stats <> ∅
    /\ ui (csv_mode demo_env (mkRequest CsvMode "General" "" true None (Some demo_upload))
             world0).2
       = [ StDataframe demo_table;
           StSuccess "📊 Data Insights:";
           StWrite "The dataset contains **2 rows** and **2 columns**.";
           StWrite "Key columns: age, name";
           StJson stats;
           StMarkdown "💡 **Use Case:**";
           StWrite advisory ].
Proof.
  destruct (csv_mode_renders_insights demo_env
              (mkRequest CsvMode "General" "" true None (Some demo_upload))
              demo_upload demo_table world0 eq_refl eq_refl eq_refl)
    as (described & _ & Hne & Hrun); [discriminate|].
  exists (to_dict described). split; [exact Hne|]. rewrite Hrun. reflexivity.
Defined.

(** ** What escapes, and what is called *)

Lemma quiet_ret {A} (a : A) : quiet (ret a).
Proof. intros w. split; reflexivity. Qed.

Lemma quiet_emit (ev : UiEvent) : quiet (emit ev).
Proof. intros w. split; reflexivity. Qed.

Lemma quiet_print (line : string) : quiet (print line).
Proof. intros w. split; reflexivity. Qed.

Lemma quiet_call {A} (r : PyResult A) : quiet (call r).
Proof. intros w. destruct r; split; reflexivity. Qed.

Lemma quiet_stop {A} : quiet (@st_stop A).
Proof. intros w. split; reflexivity. Qed.

Lemma quiet_bind {A B} (c : M A) (k : A -> M B) :
  quiet c -> (forall a, quiet (k a)) -> quiet (bind c k).
Proof.
  intros Hc Hk w. unfold bind. specialize (Hc w).
  destruct (c w) as [[a|e|] w1]; simpl in Hc; [|exact Hc|exact Hc].
  destruct (Hk a w1) as [H1 H2]. destruct Hc as [H3 H4]. split; congruence.
Qed.

Lemma quiet_try_except {A} (body : M A) (handler : PyExn -> M A) :
  quiet body -> (forall e, quiet (handler e)) -> quiet (try_except body handler).
Proof.
  intros Hb Hh w. unfold try_except. specialize (Hb w).
  destruct (body w) as [[a|e|] w1]; simpl in Hb; [exact Hb| |exact Hb].
  destruct (Hh e w1) as [H1 H2]. destruct Hb as [H3 H4]. split; congruence.
Qed.

Lemma quiet_load_models (env : Env) : quiet (load_models env).
Proof.
  unfold load_models. apply quiet_try_except.
  - repeat (apply quiet_bind;
            [first [apply quiet_print | apply quiet_call] | intros ?]).
    apply quiet_ret.
  - intros e. repeat (apply quiet_bind;
                      [first [apply quiet_print | apply quiet_emit] | intros ?]).
    apply quiet_stop.
Qed.

(** A run of the script in which no button is pressed calls no model and
    draws nothing from the random generator, whatever the mode, the uploads
    and the outcome of loading the models. *)
Theorem script_without_button (env : Env) (rq : Request) (w : World) :
  button rq = false ->
  gen_calls (script env rq w).2 = gen_calls w
  /\ rng (script env rq w).2 = rng w.
Proof.
  intros Hbtn. revert w. change (quiet (script env rq)). unfold script.
  apply quiet_bind; [apply quiet_emit | intros _].
  apply quiet_bind; [apply quiet_load_models | intros ms].
  apply quiet_bind; [apply quiet_emit | intros _].
  apply quiet_bind; [apply quiet_emit | intros _].
  apply quiet_bind;
    [|intros _; apply quiet_bind; [apply quiet_emit | intros _; apply quiet_emit]].
  destruct (input_type rq).
  - unfold text_mode. rewrite Hbtn. apply quiet_ret.
  - unfold image_mode. destruct (uploaded_image rq) as [up|]; [|apply quiet_ret].
    apply quiet_bind; [apply quiet_call | intros image].
    apply quiet_bind; [apply quiet_emit | intros _].
    rewrite Hbtn. apply quiet_ret.
  - unfold csv_mode. destruct (uploaded_csv rq) as [up|]; [|apply quiet_ret].
    apply quiet_bind; [apply quiet_call | intros df].
    apply quiet_bind; [apply quiet_emit | intros _].
    rewrite Hbtn. apply quiet_ret.
  - rewrite Hbtn. apply quiet_ret.
Qed.

Lemma script_without_button_witness :
  gen_calls (script demo_env
               (mkRequest ImageMode "General" "" false (Some demo_upload) None)
               (mkWorld [] [] 7 [])).2 = []
  /\ rng (script demo_env
            (mkRequest ImageMode "General" "" false (Some demo_upload) None)
            (mkWorld [] [] 7 [])).2 = 7%N.
Proof.
  exact (script_without_button demo_env
           (mkRequest ImageMode "General" "" false (Some demo_upload) None)
           (mkWorld [] [] 7 []) eq_refl).
Defined.

Lemma dispatch_returns (env : Env) (ms : Models) (rq : Request) (w : World) :
  escaping env rq = None ->
  exists w' body, dispatch env ms rq w = (Return tt, w') /\ ui w' = ui w ++ body.
Proof.
  intros Hesc.
  assert (H : exists (a : unit) w' evs,
             dispatch env ms rq w = (Return a, w') /\ ui w' = ui w ++ evs).
  { unfold dispatch, escaping in *. destruct (input_type rq).
    - apply returns_text_mode.
    - unfold image_mode. destruct (uploaded_image rq) as [up|]; [|apply returns_ret].
      destruct (Image_open env up) as [image|e]; [|discriminate Hesc].
      apply (returns_image_body ms rq image w).
    - unfold csv_mode. destruct (uploaded_csv rq) as [up|]; [|apply returns_ret].
      destruct (read_csv env up) as [df|e]; [|discriminate Hesc].
      apply (returns_csv_body env rq df w).
    - destruct (button rq); [discriminate Hesc | apply returns_ret]. }
  destruct H as ([] & w' & evs & Hrun & Hui). eauto.
Qed.

Lemma dispatch_raises (env : Env) (ms : Models) (rq : Request) (w : World) (e : PyExn) :
  escaping env rq = Some e -> dispatch env ms rq w = (Raised e, w).
Proof.
  unfold dispatch, escaping. destruct (input_type rq); [discriminate| | |].
  - unfold image_mode. destruct (uploaded_image rq) as [up|]; [|discriminate].
    destruct (Image_open env up) as [image|e']; [discriminate|].
    intros H. injection H as ->. reflexivity.
  - unfold csv_mode. destruct (uploaded_csv rq) as [up|]; [|discriminate].
    destruct (read_csv env up) as [df|e']; [discriminate|].
    intros H. injection H as ->. reflexivity.
  - destruct (button rq); [|discriminate]. intros H. injection H as <-. reflexivity.
Qed.

(** With the models loaded, an exception raised by [Image.open] or by
    [pd.read_csv], both called outside every [try], and the [NameError] of
    the Random Concept button leave the script: the run ends with that
    exception right after the header, and the footer is not rendered. *)
Theorem script_uncaught (env : Env) (ms : Models) (rq : Request) (w : World) (e : PyExn) :
  models_loaded env ms ->
  escaping env rq = Some e ->
  script env rq w = (Raised e, rendered header (logged load_log w)).
Proof.
  intros Hms Hesc. rewrite (script_loaded env ms rq w Hms).
  unfold bind at 1. now rewrite (dispatch_raises env ms rq _ e Hesc).
Qed.

Lemma script_uncaught_witness :
  let unreadable : Env :=
    mkEnv false (fun _ _ _ => Ok demo_generator) (fun _ => Ok demo_clip)
      (fun _ => Ok demo_processor) (fun up => Ok (mkImage 1 1 (file_bytes up)))
      (fun _ => Raise (mkExn "ParserError" "Error tokenizing data" ""))
      demo_count demo_count in
  models_loaded unreadable demo_models
  /\ script unreadable (mkRequest CsvMode "General" "" false None (Some demo_upload)) world0
     = (Raised (mkExn "ParserError" "Error tokenizing data" ""),
        rendered header (logged load_log world0)).
Proof.
  intros unreadable.
  assert (Hms : models_loaded unreadable demo_models) by (repeat split).
  split; [exact Hms|].
  exact (script_uncaught unreadable demo_models
           (mkRequest CsvMode "General" "" false None (Some demo_upload)) world0
           (mkExn "ParserError" "Error tokenizing data" "") Hms eq_refl).
Defined.

(** With the models loaded, a run in Text mode always ends normally, header
    first and footer last, whatever the text pipeline does: its exceptions
    and its malformed answers stay inside [generate_innovation]. *)
Theorem script_text_mode_completes (env : Env) (ms : Models) (rq : Request) (w : World) :
  models_loaded env ms ->
  input_type rq = TextMode ->
  exists w' body,
    script env rq w = (Return tt, w')
    /\ ui w' = ui w ++ header ++ body ++ footer.
Proof.
  intros Hms Hmode. rewrite (script_loaded env ms rq w Hms).
  assert (Hesc : escaping env rq = None) by (unfold escaping; now rewrite Hmode).
  destruct (dispatch_returns env ms rq (rendered header (logged load_log w)) Hesc)
    as (w1 & body & Hrun & Hui).
  eexists _, body. unfold bind at 1. rewrite Hrun. split; [reflexivity|].
  unfold bind, emit, footer. cbn [ui fst snd]. rewrite Hui. cbn [rendered logged ui].
  rewrite <- !app_assoc. reflexivity.
Qed.

Lemma script_text_mode_completes_witness :
  let failing : TextGenerator :=
    fun _ g => (Raise (mkExn "RuntimeError" "CUDA out of memory" ""), g) in
  let env : Env :=
    mkEnv false (fun _ _ _ => Ok failing) (fun _ => Ok demo_clip)
      (fun _ => Ok demo_processor) (fun up => Ok (mkImage 1 1 (file_bytes up)))
      (fun _ => Ok demo_table) demo_count demo_count in
  exists w' body,
    script env (mkRequest TextMode "General" "Reduce plastic waste" true None None) world0
    = (Return tt, w')
    /\ ui w' = header ++ body ++ footer.
Proof.
  intros failing env.
  apply (script_text_mode_completes env (mkModels failing demo_clip demo_processor)
           (mkRequest TextMode "General" "Reduce plastic waste" true None None) world0).
  - repeat split.
  - reflexivity.
Defined.
